(** * Fixation-distance pipeline of [building_distance.py] and [outliers.py]

    A shallow embedding of the two analysis scripts: the KMZ building
    registry loader, the per-session GPS / fixation loaders, the
    nearest-timestamp alignment, the accumulation of distance records over
    the fifteen session pairs and the IQR outlier step; followed by the
    annotation of the outlier frames ([plot_outlier_images]) and by the map
    script [animated.py], which reads the same kind of archive.

    Modelling conventions.
    - A pandas [DataFrame] is a list of rows, each carrying its index label
      (the row number given by the reader), so that label-based access
      ([idxmin] followed by [.loc]) is modelled as such.
    - Timestamps are nanosecond counts in [Z]; pandas raises on a timestamp
      difference that leaves the 64-bit range and never wraps, so whenever
      pandas returns a difference it is the mathematical one.
    - Floating-point cells (coordinates, distances) are exact rationals [Q];
      a missing cell (NaN / NaT) is [None].
    - Text is ASCII text; the files of a run are finite maps from paths to
      the tables the readers return, and the archive is the list of its
      entries with what [ET.parse] makes of each.
    - Library calls whose result the scripts do not control are parameters of
      the development: the sort behind [sort_values], [geopy]'s [geodesic],
      Python's [float], and for the later parts the existence of an image
      file, number and time formatting and [to_datetime] on a column. *)

From stdpp Require Import gmap strings list pretty sorting.
From Stdlib Require Import Ascii QArith Qround Qabs Lqa.

Close Scope Q_scope.

(** ** Exceptions *)

Inductive exn : Set :=
  | ValueError
  | KeyError
  | AttributeError
  | ParseError.

Inductive outcome (A : Type) : Type :=
  | Ok (a : A)
  | Raise (e : exn).
Arguments Ok {A} a.
Arguments Raise {A} e.

Definition outcome_bind {A B} (f : A → outcome B) (m : outcome A) : outcome B :=
  match m with
  | Ok a => f a
  | Raise e => Raise e
  end.

#[global] Instance outcome_ret : MRet outcome := λ A a, Ok a.
#[global] Instance outcome_mbind : MBind outcome := λ A B f m, outcome_bind f m.

(** ** Data frames with index labels *)

Module Pandas.

(** A frame: rows in positional order, each with its index label. *)
Abbreviation frame R := (list (nat * R)).

(** A reader ([read_csv], [read_excel]) labels the rows 0, 1, 2, ... *)
Definition of_rows {R} (rows : list R) : frame R :=
  imap (λ i r, (i, r)) rows.


(** [Series.idxmin]: the label of the first occurrence of the minimum;
    [ValueError] on an empty series. *)
Fixpoint idxmin_from (best_label : nat) (best : Z) (s : list (nat * Z)) : nat :=
  match s with
  | [] => best_label
  | (l, v) :: s' =>
      if (v <? best)%Z then idxmin_from l v s' else idxmin_from best_label best s'
  end.

Definition idxmin (s : list (nat * Z)) : outcome nat :=
  match s with
  | [] => Raise ValueError
  | (l, v) :: s' => Ok (idxmin_from l v s')
  end.

(** [df.loc[idx]] on a frame whose labels are unique: the row carrying the
    label, [KeyError] when no row does. *)
Definition loc {R} (df : frame R) (idx : nat) : outcome R :=
  match list_find (λ p, p.1 = idx) df with
  | Some (_, (_, r)) => Ok r
  | None => Raise KeyError
  end.

End Pandas.

(** ** Session tables *)

(** A row of the GPS csv after [to_datetime(..., errors='coerce')]: a cell
    that is missing or failed the coercion is [None]. *)
Record GpsCsvRow : Type := {
  csv_latitude : option Q;
  csv_longitude : option Q;
  csv_synced_time : option Z
}.

(** A trajectory sample: a GPS row that survived [dropna]. *)
Record GpsRow : Type := {
  latitude : Q;
  longitude : Q;
  synced_time : Z
}.

Definition dropna_gps (df : Pandas.frame GpsCsvRow) : Pandas.frame GpsRow :=
  omap (λ '(i, r),
          match csv_latitude r, csv_longitude r, csv_synced_time r with
          | Some la, Some lo, Some t =>
              Some (i, {| latitude := la; longitude := lo; synced_time := t |})
          | _, _, _ => None
          end) df.

(** What [sort_values(by='synced_time')] promises with the default sort kind:
    the rows come back rearranged in non-decreasing time order. *)
Definition time_le (a b : nat * GpsRow) : Prop :=
  (synced_time a.2 ≤ synced_time b.2)%Z.




Section Alignment.

Variable sort_values : Pandas.frame GpsRow → Pandas.frame GpsRow.

(** Lines 86-88 of [building_distance.py] (83-85 of [outliers.py]). *)
Definition load_gps (rows : list GpsCsvRow) : Pandas.frame GpsRow :=
  sort_values (dropna_gps (Pandas.of_rows rows)).

Definition abs_time_diff (ts : Z) (gps_df : Pandas.frame GpsRow) : list (nat * Z) :=
  (λ p, (p.1, Z.abs (synced_time p.2 - ts))) <$> gps_df.

Definition find_closest_position (gps_df : Pandas.frame GpsRow) (ts : Z)
    : outcome (Q * Q) :=
  idx ← Pandas.idxmin (abs_time_diff ts gps_df);
  r ← Pandas.loc gps_df idx;
  mret (latitude r, longitude r).

End Alignment.

(** ** Fixation tables, registry and distance records *)

(** A row of the fixation workbook after the timestamp coercion. *)
Record FixXlsxRow : Type := {
  xl_start_timestamp_ns : option Z;
  xl_house_nr : option Z;
  xl_frame_nr : option Z;
  xl_session : option string
}.

(** A fixation row that survived [dropna(subset=['start_timestamp_ns'])]. *)
Record FixRow : Type := {
  fix_start_timestamp_ns : Z;
  fix_house_nr : option Z;
  fix_frame_nr : option Z;
  fix_session : option string
}.

Definition dropna_fix (df : Pandas.frame FixXlsxRow) : Pandas.frame FixRow :=
  omap (λ '(i, r),
          match xl_start_timestamp_ns r with
          | Some t =>
              Some (i, {| fix_start_timestamp_ns := t;
                          fix_house_nr := xl_house_nr r;
                          fix_frame_nr := xl_frame_nr r;
                          fix_session := xl_session r |})
          | None => None
          end) df.

(** [house_coords]: house id -> (lat, lon, name). *)
Abbreviation registry := (gmap Z (Q * Q * string)).

(** [fix_df['house_nr'] != 0]; a missing cell compares unequal to 0. *)
Definition house_nr_ne_0 (h : option Z) : bool :=
  match h with
  | Some z => negb (z =? 0)%Z
  | None => true
  end.

(** [fix_df['house_nr'].isin(house_coords.keys())]. *)
Definition house_nr_isin (house_coords : registry) (h : option Z) : bool :=
  match h with
  | Some z => bool_decide (is_Some (house_coords !! z))
  | None => false
  end.

Definition filter_fix (house_coords : registry) (df : Pandas.frame FixRow)
    : Pandas.frame FixRow :=
  List.filter (λ p, house_nr_ne_0 (fix_house_nr p.2)
                    && house_nr_isin house_coords (fix_house_nr p.2)) df.

(** Lines 87-91 of [outliers.py] (91-94 of [building_distance.py]). *)
Definition load_fix (house_coords : registry) (rows : list FixXlsxRow)
    : Pandas.frame FixRow :=
  filter_fix house_coords (dropna_fix (Pandas.of_rows rows)).

(** One entry of [all_results] ([outliers.py] carries all ten keys;
    [building_distance.py] the first eight). *)
Record DistanceResult : Type := {
  expl : nat;
  et : nat;
  house_nr : Z;
  building_name : string;
  fixation_time : Z;
  person_position : Q * Q;
  target_position : Q * Q;
  distance_m : Q;
  frame_nr : option Z;
  session : option string
}.

(** ** The script monad: printed lines, [all_results], exceptions *)

Record state : Type := {
  stdout : list string;
  all_results : list DistanceResult
}.

Definition initial_state : state := {| stdout := []; all_results := [] |}.

Definition script (A : Type) : Type := state → outcome A * state.

Definition script_ret {A} (a : A) : script A := λ st, (Ok a, st).

Definition script_bind {A B} (m : script A) (f : A → script B) : script B :=
  λ st, match m st with
        | (Ok a, st') => f a st'
        | (Raise e, st') => (Raise e, st')
        end.

Declare Scope script_scope.
Delimit Scope script_scope with script.
Notation "x <- m ;; k" := (script_bind m (λ x, k))
  (at level 100, m at next level, right associativity) : script_scope.
Notation "m ;; k" := (script_bind m (λ _, k))
  (at level 100, right associativity) : script_scope.

Definition lift {A} (o : outcome A) : script A := λ st, (o, st).

Definition print (line : string) : script unit :=
  λ st, (Ok (), {| stdout := stdout st ++ [line]; all_results := all_results st |}).

Definition append_result (r : DistanceResult) : script unit :=
  λ st, (Ok (), {| stdout := stdout st; all_results := all_results st ++ [r] |}).

(** A [for] loop whose body may raise. *)
Fixpoint for_each {A} (xs : list A) (body : A → script unit) : script unit :=
  match xs with
  | [] => script_ret ()
  | x :: xs' => (body x ;; for_each xs' body)%script
  end.

(** ** The files of a run *)

Definition gps_dir : string := "thesis/data/raw/documents-export-2025-04-08".
Definition fix_dir : string := "thesis/data/raw/final_labeling_data_frame_nr_NOT_sorted".

(** The tables found under [gps_dir] and [fix_dir], by path; a path that is
    not a key does not exist. *)
Record files : Type := {
  gps_files : gmap string (list GpsCsvRow);
  fix_files : gmap string (list FixXlsxRow)
}.

Definition path_join (dir name : string) : string := dir +:+ "/" +:+ name.

Definition gps_filename (expl et : nat) : string :=
  "cleaned-interpol-Expl_" +:+ pretty expl +:+ "_ET_" +:+ pretty et +:+ ".csv".

Definition fix_filename (expl et : nat) : string :=
  "fixation_GPS_Expl_" +:+ pretty expl +:+ "_ET_" +:+ pretty et +:+ "_labelled.xlsx".

Definition gps_path (expl et : nat) : string := path_join gps_dir (gps_filename expl et).
Definition fix_path (expl et : nat) : string := path_join fix_dir (fix_filename expl et).

Definition skipping_line (expl et : nat) : string :=
  "Skipping pair: " +:+ gps_filename expl et +:+ " and " +:+ fix_filename expl et.

Definition processing_line (expl et : nat) : string :=
  "Processing: " +:+ gps_filename expl et +:+ " and " +:+ fix_filename expl et.

Section Pipeline.

Variable sort_values : Pandas.frame GpsRow → Pandas.frame GpsRow.
Variable geodesic : Q * Q → Q * Q → Q.
Variable house_coords : registry.
Variable fs : files.

(** Body of the loop over [fix_df.iterrows()]. *)
Definition distance_row (expl et : nat) (gps_df : Pandas.frame GpsRow)
    (row : FixRow) : script unit :=
  let fixation_time := fix_start_timestamp_ns row in
  match fix_house_nr row with
  | Some house_id =>
      match house_coords !! house_id with
      | Some (target_lat, target_lon, building_name) =>
          (person_coords <- lift (find_closest_position gps_df fixation_time) ;;
           let distance_m := geodesic person_coords (target_lat, target_lon) in
           append_result
             {| expl := expl;
                et := et;
                house_nr := house_id;
                building_name := building_name;
                fixation_time := fixation_time;
                person_position := person_coords;
                target_position := (target_lat, target_lon);
                distance_m := distance_m;
                frame_nr := fix_frame_nr row;
                session := fix_session row |})%script
      | None => script_ret ()
      end
  | None => script_ret ()
  end.

(** Body of the double loop over [expl] and [et]. *)
Definition process_pair (expl et : nat) : script unit :=
  match gps_files fs !! gps_path expl et, fix_files fs !! fix_path expl et with
  | Some gps_rows, Some fix_rows =>
      (print (processing_line expl et) ;;
       let gps_df := load_gps sort_values gps_rows in
       let fix_df := load_fix house_coords fix_rows in
       for_each fix_df.*2 (distance_row expl et gps_df))%script
  | _, _ => print (skipping_line expl et)
  end.

(** [for expl in range(1, 6): for et in range(1, 4): ...] *)
Definition process_all : script unit :=
  for_each (seq 1 5) (λ expl, for_each (seq 1 3) (λ et, process_pair expl et)).

End Pipeline.

(** The pairs visited by the double loop, in order. *)
Definition session_pairs : list (nat * nat) :=
  expl ← seq 1 5; (λ et, (expl, et)) <$> seq 1 3.

(** The line a pair prints when the loop reaches it. *)
Definition log_line (fs : files) (pair : nat * nat) : string :=
  match gps_files fs !! gps_path pair.1 pair.2, fix_files fs !! fix_path pair.1 pair.2 with
  | Some _, Some _ => processing_line pair.1 pair.2
  | _, _ => skipping_line pair.1 pair.2
  end.

(** ** Text helpers (ASCII text) *)

Module Text.

(** [str.isspace] on the ASCII range; the class [\s] of [re] is the same. *)
Definition isspace (c : Ascii.ascii) : bool :=
  let n := Ascii.nat_of_ascii c in
  ((9 <=? n) && (n <=? 13)) || ((28 <=? n) && (n <=? 32)).

Definition isdigit (c : Ascii.ascii) : bool :=
  let n := Ascii.nat_of_ascii c in (48 <=? n) && (n <=? 57).

Fixpoint lstrip (s : string) : string :=
  match s with
  | String c s' => if isspace c then lstrip s' else s
  | EmptyString => EmptyString
  end.

Definition rstrip (s : string) : string := String.rev (lstrip (String.rev s)).

(** [s.strip()] *)
Definition strip (s : string) : string := rstrip (lstrip s).

(** [s.endswith(suffix)] *)
Definition endswith (s suffix : string) : bool :=
  (String.length suffix <=? String.length s)
  && String.eqb
       (String.substring (String.length s - String.length suffix) (String.length suffix) s)
       suffix.

(** [s.split(sep)] for a one-character separator: never an empty list. *)
Fixpoint split (sep : Ascii.ascii) (s : string) : list string :=
  match s with
  | EmptyString => [EmptyString]
  | String c s' =>
      if Ascii.eqb c sep then EmptyString :: split sep s'
      else match split sep s' with
           | h :: t => String c h :: t
           | [] => [String c EmptyString]
           end
  end.

(** [sep.join(fields)], the inverse of [split] on fields free of [sep]. *)
Fixpoint join (sep : Ascii.ascii) (fields : list string) : string :=
  match fields with
  | [] => EmptyString
  | [f] => f
  | f :: rest => f +:+ String sep (join sep rest)
  end.

(** [c in s] *)
Fixpoint contains (c : Ascii.ascii) (s : string) : bool :=
  match s with
  | EmptyString => false
  | String c' s' => Ascii.eqb c' c || contains c s'
  end.

(** Lower-casing of the ASCII letters, for [re.IGNORECASE]. *)
Definition lower (c : Ascii.ascii) : Ascii.ascii :=
  let n := Ascii.nat_of_ascii c in
  if (65 <=? n) && (n <=? 90) then Ascii.ascii_of_nat (n + 32) else c.

(** Removes [prefix] (given in lower case) from the front of [s], ignoring
    the case of [s]. *)
Fixpoint strip_prefix_ci (prefix s : string) : option string :=
  match prefix, s with
  | EmptyString, _ => Some s
  | String p prefix', String c s' =>
      if Ascii.eqb (lower c) p then strip_prefix_ci prefix' s' else None
  | String _ _, EmptyString => None
  end.



Fixpoint take_digits (s : string) : list Ascii.ascii :=
  match s with
  | String c s' => if isdigit c then c :: take_digits s' else []
  | EmptyString => []
  end.

(** [int(digits)] for a run of ASCII digits. *)
Definition int_of_digits (ds : list Ascii.ascii) : Z :=
  fold_left (λ acc c, acc * 10 + (Z.of_nat (Ascii.nat_of_ascii c) - 48))%Z ds 0%Z.

End Text.

(** ** Building registry loader *)

Module Kml.

(** A [Placemark] element as the loader reads it: its [name] child and its
    [Point/coordinates] descendant, each absent ([None]) or present with
    its text ([Some None] for an element without text). *)
Record Placemark : Type := {
  name_elem : option (option string);
  coord_elem : option (option string)
}.

(** What [ET.parse] makes of an archive entry. *)
Inductive document : Type :=
  | Malformed
  | Document (placemarks : list Placemark).

(** The archive: its entries in [namelist()] order. *)
Definition archive : Type := list (string * document).

Definition namelist (z : archive) : list string := z.*1.

(** The first name ending in [.kml], as found by the loop with [break]. *)
Definition find_kml (z : archive) : option string :=
  snd <$> list_find (λ name, Text.endswith name ".kml" = true) (namelist z).

(** [z.extract(name, ".")] writes the member registered under [name]; with
    duplicate names the archive's directory keeps the last one. *)
Definition extract (z : archive) (name : string) : option document :=
  (λ p, (p.2).2) <$> list_find (λ e, e.1 = name) (reverse z).

(** [re.match(r'Punkt\s*(\d+)', name_text, re.IGNORECASE)] followed by
    [int(match.group(1))]. *)
Definition match_punkt (name_text : string) : option Z :=
  rest ← Text.strip_prefix_ci "punkt" name_text;
  let digits := Text.take_digits (Text.lstrip rest) in
  match digits with
  | [] => None
  | _ => Some (Text.int_of_digits digits)
  end.

(** [elem.text.strip()]: an element without text has [text = None]. *)
Definition text_strip (text : option string) : outcome string :=
  match text with
  | Some t => Ok (Text.strip t)
  | None => Raise AttributeError
  end.

(** The placemarks the loop passes over without reading their coordinates:
    no [name] child, no point coordinates, or a name that is not "Punkt n".
    (A [name] child without text is not among them: its [strip] raises.) *)
Definition skipped (placemark : Placemark) : bool :=
  match name_elem placemark, coord_elem placemark with
  | Some (Some name_text), Some _ =>
      bool_decide (match_punkt (Text.strip name_text) = None)
  | Some None, Some _ => false
  | _, _ => true
  end.

(** The house number under which the loop registers a placemark, if it
    registers it. *)
Definition house_of (placemark : Placemark) : option Z :=
  match name_elem placemark, coord_elem placemark with
  | Some (Some name_text), Some _ => match_punkt (Text.strip name_text)
  | _, _ => None
  end.

Section Loader.

(** Python's [float(s)]; [None] stands for its [ValueError]. *)
Variable float : string → option Q.

(** [map(float, coords.split(','))], consumed wholly by the starred
    unpacking. *)
Definition parse_fields (coords : string) : outcome (list Q) :=
  match mapM float (Text.split ","%char coords) with
  | Some fields => Ok fields
  | None => Raise ValueError
  end.

(** [lon, lat, *_ = map(float, coords.split(','))] *)
Definition parse_coords (coords : string) : outcome (Q * Q) :=
  fields ← parse_fields coords;
  match fields with
  | lon :: lat :: _ => Ok (lon, lat)
  | _ => Raise ValueError
  end.

(** Body of the loop over the placemarks. *)
Definition add_placemark (house_coords : registry) (placemark : Placemark)
    : outcome registry :=
  match name_elem placemark, coord_elem placemark with
  | Some name_text, Some coord_text =>
      name_text ← text_strip name_text;
      match match_punkt name_text with
      | Some house_id =>
          coords ← text_strip coord_text;
          '(lon, lat) ← parse_coords coords;
          Ok (<[house_id := (lat, lon, name_text)]> house_coords)
      | None => Ok house_coords
      end
  | _, _ => Ok house_coords
  end.

Fixpoint add_placemarks (house_coords : registry) (placemarks : list Placemark)
    : outcome registry :=
  match placemarks with
  | [] => Ok house_coords
  | placemark :: rest =>
      house_coords' ← add_placemark house_coords placemark;
      add_placemarks house_coords' rest
  end.

(** Lines 42-66 of [building_distance.py] (37-63 of [outliers.py]). *)
Definition load_house_coords (z : archive) : outcome registry :=
  match find_kml z with
  | Some kml_file =>
      if String.eqb kml_file "" then Ok ∅
      else
        match extract z kml_file with
        | Some (Document placemarks) => add_placemarks ∅ placemarks
        | Some Malformed | None => Raise ParseError
        end
  | None => Ok ∅
  end.

(** [placemark] is a building placemark read as house [house_id] with the
    entry [(lat, lon, name)]. *)
Definition registers (placemark : Placemark) (house_id : Z)
    (entry : Q * Q * string) : Prop :=
  ∃ name_text coord_text,
    name_elem placemark = Some (Some name_text)
    ∧ coord_elem placemark = Some (Some coord_text)
    ∧ match_punkt (Text.strip name_text) = Some house_id
    ∧ parse_coords (Text.strip coord_text) = Ok (entry.1.2, entry.1.1)
    ∧ entry.2 = Text.strip name_text.

End Loader.

End Kml.

(** ** Outlier step of [outliers.py] *)

Module Outliers.

#[global] Instance Qle_dec : RelDecision Qle.
Proof.
  intros x y. destruct (Qle_bool x y) eqn:E.
  - left. by apply Qle_bool_iff.
  - right. intros H. apply Qle_bool_iff in H. congruence.
Defined.

#[global] Instance Qle_transitive : Transitive Qle.
Proof. intros x y z. apply Qle_trans. Qed.

#[global] Instance Qle_total : Total Qle.
Proof.
  intros x y. destruct (Qlt_le_dec x y) as [Hlt|Hle]; [left|by right].
  by apply Qlt_le_weak.
Qed.

Definition Qlt_bool (x y : Q) : bool := negb (Qle_bool y x).

(** [pd.DataFrame(all_results)] takes its columns from the keys of the
    records: built from an empty list it has none. *)
Definition columns (distance_df : list DistanceResult) : list string :=
  match distance_df with
  | [] => []
  | _ :: _ =>
      ["expl"; "et"; "house_nr"; "building_name"; "fixation_time";
       "person_position"; "target_position"; "distance_m"; "frame_nr"; "session"]
  end.

(** [distance_df['distance_m']] *)
Definition column_distance_m (distance_df : list DistanceResult) : outcome (list Q) :=
  if bool_decide ("distance_m" ∈ columns distance_df)
  then Ok (distance_m <$> distance_df)
  else Raise KeyError.

(** Linear interpolation at the fractional position [(n - 1) * q] of a
    sorted series of [n] values: between the value at the floor of the
    position and the next one. *)
Definition interpolate (sorted : list Q) (q : Q) : Q :=
  let n := length sorted in
  let pos := (inject_Z (Z.of_nat (n - 1)) * q)%Q in
  let lo := Z.to_nat (Qfloor pos) in
  let frac := (pos - inject_Z (Qfloor pos))%Q in
  let a := nth lo sorted 0%Q in
  let b := nth (Nat.min (lo + 1) (n - 1)) sorted 0%Q in
  (a + (b - a) * frac)%Q.

(** [Series.quantile(q)] with the default linear interpolation; [None]
    (NaN) for an empty series. *)
Definition quantile (xs : list Q) (q : Q) : option Q :=
  match merge_sort Qle xs with
  | [] => None
  | sorted => Some (Qred (interpolate sorted q))
  end.

(** The row mask of line 133. *)
Definition is_outlier (Q1 Q3 : Q) (r : DistanceResult) : bool :=
  let IQR := (Q3 - Q1)%Q in
  Qlt_bool (distance_m r) (Q1 - (3 # 2) * IQR)
  || Qlt_bool (Q3 + (3 # 2) * IQR) (distance_m r).

(** Lines 129-133: the quantiles are taken of the whole column; a NaN
    bound makes every comparison false. *)
Definition outlier_df (distance_df : list DistanceResult)
    : outcome (list DistanceResult) :=
  col ← column_distance_m distance_df;
  match quantile col (1 # 4), quantile col (3 # 4) with
  | Some Q1, Some Q3 => Ok (List.filter (is_outlier Q1 Q3) distance_df)
  | _, _ => Ok []
  end.

End Outliers.

(** ** The two scripts *)

Definition get_all_results : script (list DistanceResult) :=
  λ st, (Ok (all_results st), st).

Section Scripts.

Variable float : string → option Q.
Variable sort_values : Pandas.frame GpsRow → Pandas.frame GpsRow.
Variable geodesic : Q * Q → Q * Q → Q.

(** Registry, double loop, [distance_df]: shared by both scripts. *)
Definition collect (z : Kml.archive) (fs : files) : script (list DistanceResult) :=
  (house_coords <- lift (Kml.load_house_coords float z) ;;
   process_all sort_values geodesic house_coords fs ;;
   get_all_results)%script.

(** [outliers.py] up to [outlier_df]. *)
Definition outliers_py (z : Kml.archive) (fs : files)
    : outcome (list DistanceResult) * state :=
  (distance_df <- collect z fs ;;
   lift (Outliers.outlier_df distance_df))%script initial_state.

(** [building_distance.py] up to its first plot, which reads
    [distance_df['distance_m']]. *)
Definition building_distance_py (z : Kml.archive) (fs : files)
    : outcome (list Q) * state :=
  (distance_df <- collect z fs ;;
   lift (Outliers.column_distance_m distance_df))%script initial_state.

End Scripts.

(** ** Annotation of the outlier frames ([plot_outlier_images]) *)

Module Annotate.

(** [posixpath.join(a, b)]; [os.path.join(a, b, c)] joins from the left. *)
Definition join (a b : string) : string :=
  if String.prefix "/" b then b
  else if String.eqb a "" || Text.endswith a "/" then a +:+ b
  else a +:+ "/" +:+ b.

(** [s.replace(old, new)] for single characters. *)
Fixpoint replace (old new : Ascii.ascii) (s : string) : string :=
  match s with
  | EmptyString => EmptyString
  | String c s' => String (if Ascii.eqb c old then new else c) (replace old new s')
  end.

Definition output_dir : string := "outlier_frames_annotated".

(** What the function has printed and the images it has written, each with
    the text drawn on it. *)
Record canvas : Type := {
  printed : list string;
  saved : list (string * string)
}.

(** How the loop ends: normally, or in the exception of [int] applied to a
    missing frame number ([ValueError] for NaN, [TypeError] for [None]). *)
Inductive ending : Set :=
  | Finished
  | IntOfMissing.

Section Plot.

(** [str] of a missing session cell: "nan" or "None". *)
Variable str_missing : string.
(** [f"{distance:.1f}"] *)
Variable format_1f : Q → string.
(** Whether [Image.open] finds the file. *)
Variable image_exists : string → bool.
(** Whether [img.save] can create the file; it raises [FileNotFoundError]
    when the directory of the path does not exist. *)
Variable can_save : string → bool.

(** [str(row['session'])[:11]] *)
Definition session_prefix (row : DistanceResult) : string :=
  String.substring 0 11
    (match session row with Some s => s | None => str_missing end).

Definition image_file (image_path : string) (row : DistanceResult) (frame : Z) : string :=
  join (join image_path (session_prefix row))
       ("gaze_plot_frame_" +:+ pretty frame +:+ ".jpg").

Definition annotation (row : DistanceResult) : string :=
  "House " +:+ pretty (house_nr row) +:+ " - " +:+ building_name row
  +:+ " - " +:+ format_1f (distance_m row) +:+ " m".

Definition save_path (row : DistanceResult) (frame : Z) : string :=
  join output_dir
       (session_prefix row +:+ "_frame_" +:+ pretty frame +:+ "_"
        +:+ replace " " "_" (building_name row) +:+ ".jpg").

(** Body of the loop over [outlier_df.iterrows()]; both [Image.open] and
    [img.save] stand inside the [try], [int(row['frame_nr'])] before it. *)
Definition plot_row (image_path : string) (row : DistanceResult) (c : canvas)
    : ending * canvas :=
  match frame_nr row with
  | None => (IntOfMissing, c)
  | Some frame =>
      if image_exists (image_file image_path row frame)
         && can_save (save_path row frame)
      then (Finished,
            {| printed := printed c ++ ["Saved: " +:+ save_path row frame];
               saved := saved c ++ [(save_path row frame, annotation row)] |})
      else (Finished,
            {| printed := printed c
                          ++ ["Image not found: " +:+ image_file image_path row frame];
               saved := saved c |})
  end.

Fixpoint plot_rows (image_path : string) (rows : list DistanceResult) (c : canvas)
    : ending * canvas :=
  match rows with
  | [] => (Finished, c)
  | row :: rest =>
      match plot_row image_path row c with
      | (Finished, c') => plot_rows image_path rest c'
      | (IntOfMissing, c') => (IntOfMissing, c')
      end
  end.

(** Lines 139-183 of [outliers.py]. *)
Definition plot_outlier_images (outlier_df : list DistanceResult) (image_path : string)
    : ending * canvas :=
  plot_rows image_path outlier_df {| printed := []; saved := [] |}.

End Plot.

End Annotate.

(** ** The animated map ([animated.py]) *)

Module Animated.

(** A row of a GPS csv as read, before any coercion. *)
Record RawGpsRow : Type := {
  raw_latitude : option Q;
  raw_longitude : option Q;
  raw_synced_time : option string
}.

Definition color_palette : list string :=
  ["blue"; "red"; "green"; "orange"; "purple"; "pink";
   "brown"; "black"; "cyan"; "magenta"].

(** A GeoJSON point feature, by its fields that vary: coordinates
    (longitude first), time, popup text and colour. *)
Record Feature : Type := {
  coordinates : Q * Q;
  time : string;
  popup : string;
  color : string
}.

(** A [CircleMarker]: location (latitude first) and tooltip. *)
Record Marker : Type := {
  location : Q * Q;
  tooltip : option string
}.

(** The map [m] and the variables of the script around it; [cycle] counts
    the calls of [next(color_cycle)]. *)
Record state : Type := {
  map_location : Q * Q;
  layers : list (list Feature);
  markers : list Marker;
  cycle : nat;
  first_point : option (Q * Q);
  legend_items : list (string * string)
}.

(** [folium.Map(location=[52.52, 13.405], ...)] and the empty variables. *)
Definition initial : state :=
  {| map_location := ((1313 # 25)%Q, (2681 # 200)%Q);
     layers := []; markers := []; cycle := 0;
     first_point := None; legend_items := [] |}.

(** [df.dropna(subset=['latitude', 'longitude', 'synced_time'])] on the raw
    cells. *)
Definition dropna_cells (df : Pandas.frame RawGpsRow) : Pandas.frame (Q * Q * string) :=
  omap (λ '(i, r),
          match raw_latitude r, raw_longitude r, raw_synced_time r with
          | Some la, Some lo, Some t => Some (i, (la, lo, t))
          | _, _, _ => None
          end) df.

(** [df.dropna(subset=['synced_time'])] after the coercion. *)
Definition dropna_time (df : Pandas.frame (Q * Q * option Z)) : Pandas.frame GpsRow :=
  omap (λ '(i, (la, lo, t)),
          match t with
          | Some t => Some (i, {| latitude := la; longitude := lo; synced_time := t |})
          | None => None
          end) df.

(** [os.listdir(folder_path)]: the names in the order the system lists
    them, each with the rows [read_csv] finds in the file. *)
Abbreviation folder := (list (string * list RawGpsRow)).

(** [[f for f in os.listdir(folder_path) if f.endswith('.csv')]] *)
Definition csv_files (dir : folder) : folder :=
  List.filter (λ f, Text.endswith f.1 ".csv") dir.

Section Script.

(** [pd.to_datetime(column, errors='coerce')], on a whole column. *)
Variable to_datetime : list string → list (option Z).
(** [strftime('%Y-%m-%dT%H:%M:%S')] *)
Variable strftime : Z → string.
Variable sort_values : Pandas.frame GpsRow → Pandas.frame GpsRow.
Variable float : string → option Q.

(** [df['synced_time'] = pd.to_datetime(df['synced_time'], errors='coerce')] *)
Definition coerce_time (df : Pandas.frame (Q * Q * string))
    : Pandas.frame (Q * Q * option Z) :=
  zip_with (λ '(i, (la, lo, _)) t, (i, (la, lo, t))) df (to_datetime (df.*2.*2)).

(** Lines 37-45. *)
Definition load_track (rows : list RawGpsRow) : Pandas.frame GpsRow :=
  sort_values (dropna_time (coerce_time (dropna_cells (Pandas.of_rows rows)))).

(** One entry of [features]. *)
Definition feature (csv_file color : string) (row : GpsRow) : Feature :=
  let time_str := strftime (synced_time row) in
  {| coordinates := (longitude row, latitude row);
     time := time_str;
     popup := csv_file +:+ " @ " +:+ time_str;
     color := color |}.

(** Body of the loop over [csv_files]. *)
Definition process_csv (st : state) (file : string * list RawGpsRow) : state :=
  let '(csv_file, rows) := file in
  let color := nth (cycle st `mod` length color_palette) color_palette EmptyString in
  let legend_items := legend_items st ++ [(csv_file, color)] in
  match load_track rows with
  | [] =>
      {| map_location := map_location st; layers := layers st;
         markers := markers st; cycle := S (cycle st);
         first_point := first_point st; legend_items := legend_items |}
  | ((_, first) :: _) as df =>
      let point := (latitude first, longitude first) in
      {| map_location :=
           match first_point st with None => point | Some _ => map_location st end;
         layers := layers st ++ [feature csv_file color <$> df.*2];
         markers := markers st; cycle := S (cycle st);
         first_point :=
           match first_point st with None => Some point | Some p => Some p end;
         legend_items := legend_items |}
  end.

(** Body of the loop over the placemarks: a marker for every placemark with
    point coordinates, whatever its name. *)
Definition add_marker (markers : list Marker) (placemark : Kml.Placemark)
    : outcome (list Marker) :=
  match Kml.coord_elem placemark with
  | Some coord_text =>
      coords ← Kml.text_strip coord_text;
      '(lon, lat) ← Kml.parse_coords float coords;
      Ok (markers
          ++ [{| location := (lat, lon);
                 tooltip := match Kml.name_elem placemark with
                            | Some text => text
                            | None => Some EmptyString
                            end |}])
  | None => Ok markers
  end.

Fixpoint add_markers (markers : list Marker) (placemarks : list Kml.Placemark)
    : outcome (list Marker) :=
  match placemarks with
  | [] => Ok markers
  | placemark :: rest =>
      markers' ← add_marker markers placemark;
      add_markers markers' rest
  end.

(** Lines 129-159. *)
Definition load_markers (z : Kml.archive) : outcome (list Marker) :=
  match Kml.find_kml z with
  | Some kml_file =>
      if String.eqb kml_file "" then Ok []
      else
        match Kml.extract z kml_file with
        | Some (Kml.Document placemarks) => add_markers [] placemarks
        | Some Kml.Malformed | None => Raise ParseError
        end
  | None => Ok []
  end.

(** The script up to [m.save]: the loop over the csv files, then the
    markers. *)
Definition animated_py (dir : folder) (z : Kml.archive) : outcome state :=
  let st := fold_left process_csv (csv_files dir) initial in
  markers ← load_markers z;
  Ok {| map_location := map_location st; layers := layers st;
        markers := markers; cycle := cycle st;
        first_point := first_point st; legend_items := legend_items st |}.

End Script.

End Animated.

(** ** Instances used in examples *)

Module Instances.

#[global] Instance time_le_dec : RelDecision time_le.
Proof. intros a b. unfold time_le. apply _. Defined.

(** A sort as [kind='mergesort'] would give. *)
Definition sort_values_merge (df : Pandas.frame GpsRow) : Pandas.frame GpsRow :=
  merge_sort time_le df.



Fixpoint drop_digits (s : string) : string :=
  match s with
  | String c s' => if Text.isdigit c then drop_digits s' else s
  | EmptyString => EmptyString
  end.

(** [float] on plain decimal literals: [-]digits[.digits]. *)
Definition decimal_float (s : string) : option Q :=
  let '(sign, body) :=
    match s with
    | String "-" s' => ((-1)%Z, s')
    | _ => (1%Z, s)
    end in
  let int_part := Text.take_digits body in
  match int_part, drop_digits body with
  | [], _ => None
  | _, EmptyString => Some (inject_Z (sign * Text.int_of_digits int_part))
  | _, String "." frac =>
      let frac_part := Text.take_digits frac in
      match drop_digits frac with
      | EmptyString =>
          Some (Qred (Qmake (sign * Text.int_of_digits (int_part ++ frac_part))
                            (Z.to_pos (10 ^ Z.of_nat (length frac_part)))))
      | _ => None
      end
  | _, _ => None
  end.

(** A stand-in for [geodesic(...).meters] in examples. *)
Definition taxicab (p q : Q * Q) : Q :=
  Qred (Qabs (p.1 - q.1) + Qabs (p.2 - q.2)).

(** A stand-in for the timestamp coercion of a column: a cell that is a
    decimal numeral is that many seconds, any other cell is not a time. *)
Definition epoch_seconds (column : list string) : list (option Z) :=
  (λ cell, match Text.take_digits cell, drop_digits cell with
           | (_ :: _) as ds, EmptyString => Some (Text.int_of_digits ds)
           | _, _ => None
           end) <$> column.

End Instances.

(** ** Example data *)

Module Examples.

Definition csv_row (la lo : Q) (t : Z) : GpsCsvRow :=
  {| csv_latitude := Some la; csv_longitude := Some lo; csv_synced_time := Some t |}.

(** A GPS file out of time order, with one row lacking its latitude. *)
Definition trajectory : list GpsCsvRow :=
  [ csv_row 52 13 10;
    {| csv_latitude := None; csv_longitude := Some 13%Q; csv_synced_time := Some 4%Z |};
    csv_row 52 (130001 # 10000) 0 ].


(** The registry of the spec's scenario. *)
Definition house_coords : registry := {[ 1%Z := (52%Q, 13%Q, "Haus A") ]}.

Definition fixation (t : Z) (house : Z) : FixXlsxRow :=
  {| xl_start_timestamp_ns := Some t;
     xl_house_nr := Some house;
     xl_frame_nr := Some 7%Z;
     xl_session := Some "Expl_1_ET_1" |}.

(** Fixations on house 1, on no house (0), on an unregistered house (2),
    and one whose timestamp did not parse. *)
Definition fixations : list FixXlsxRow :=
  [ fixation 9 1; fixation 3 0; fixation 4 2;
    {| xl_start_timestamp_ns := None; xl_house_nr := Some 1%Z;
       xl_frame_nr := None; xl_session := None |} ].

(** A GPS file none of whose rows is valid. *)
Definition no_valid_sample : list GpsCsvRow :=
  [ {| csv_latitude := None; csv_longitude := Some 13%Q; csv_synced_time := Some 4%Z |} ].

(** Only the pair (1, 1) has its two files. *)
Definition fs_one : files :=
  {| gps_files := {[ gps_path 1 1 := trajectory ]};
     fix_files := {[ fix_path 1 1 := fixations ]} |}.

(** The pair (1, 1) has fixations but no valid sample; the pair (1, 2) is
    complete. *)
Definition fs_empty_trajectory : files :=
  {| gps_files := {[ gps_path 1 1 := no_valid_sample; gps_path 1 2 := trajectory ]};
     fix_files := {[ fix_path 1 1 := fixations; fix_path 1 2 := fixations ]} |}.

Definition placemark (name coords : string) : Kml.Placemark :=
  {| Kml.name_elem := Some (Some name); Kml.coord_elem := Some (Some coords) |}.

(** An archive whose second entry is the markup document: a building, a
    placemark with another kind of name, and one without point geometry. *)
Definition archive : Kml.archive :=
  [ ("notes.txt", Kml.Malformed);
    ("doc.kml",
     Kml.Document
       [ placemark " Punkt 1 " "13.0001,52.0,0";
         placemark "Parkplatz" "13.1,52.1,0";
         {| Kml.name_elem := Some (Some "Punkt 3"); Kml.coord_elem := None |} ]) ].

(** The same document stored under a name without the [.kml] ending. *)
Definition archive_no_kml : Kml.archive :=
  [ ("doc.xml", Kml.Document [ placemark "Punkt 1" "13.0001,52.0,0" ]) ].

(** The pooled distances of the spec's scenario. *)
Definition pooled_distances : list Q :=
  [1; 2; 2; 3; 3; 3; 4; 4; 5; 100]%Q.

(** A record of the pair ([e], [t]) with distance [d]. *)
Definition result_in (e t : nat) (d : Q) : DistanceResult :=
  {| expl := e; et := t; house_nr := 1; building_name := "Haus A";
     fixation_time := 0; person_position := (52%Q, 13%Q);
     target_position := (52%Q, 13%Q); distance_m := d;
     frame_nr := None; session := None |}.

Definition pooled : list DistanceResult := result_in 1 1 <$> pooled_distances.

(** The same distances recorded in two sessions: all but the largest in
    the pair (1, 1), the largest alone in the pair (2, 1). *)

Definition two_sessions : list DistanceResult :=
  (result_in 1 1 <$> [1; 2; 2; 3; 3; 3; 4; 4; 5]%Q) ++ [result_in 2 1 100].


(** A document naming house 1 twice, the second time in another spelling,
    followed by a placemark that is no building and has no usable
    coordinates. *)
Definition duplicates : list Kml.Placemark :=
  [ placemark "Punkt 1" "13.0,52.0";
    placemark "punkt 01" "14.5,53.5,0";
    placemark "Parkplatz" "somewhere" ].

(** An outlier record that names its frame and session, and one taken from
    a fixation file without those columns. *)
Definition outlier_framed : DistanceResult :=
  {| expl := 1; et := 1; house_nr := 1; building_name := "Punkt 1";
     fixation_time := 9; person_position := (52%Q, 13%Q);
     target_position := (52%Q, (130001 # 10000)%Q); distance_m := 250;
     frame_nr := Some 7%Z; session := Some "Expl_1_ET_1_labelled" |}.


(** An image folder holding the frame 7 of the session Expl_1_ET_1. *)
Definition one_image (path : string) : bool :=
  String.eqb path "frames/Expl_1_ET_1/gaze_plot_frame_7.jpg".

(** A stand-in for the one-decimal format of a distance. *)
Definition whole_metres (d : Q) : string := pretty (Qfloor d) +:+ ".0".

(** A folder of eleven tracks, the fourth without a valid row, and a text
    file. *)
Definition raw_row (la lo : Q) (t : string) : Animated.RawGpsRow :=
  {| Animated.raw_latitude := Some la; Animated.raw_longitude := Some lo;
     Animated.raw_synced_time := Some t |}.

Definition eleven_tracks : Animated.folder :=
  ("readme.txt", [])
  :: ((λ k, ("track_" +:+ pretty k +:+ ".csv",
             if k =? 3 then [raw_row 52 13 "noon"]
             else [raw_row 52 13 "20"; raw_row (inject_Z (Z.of_nat k)) 13 "10"]))
      <$> seq 0 11).


(** No file at all. *)
Definition fs_none : files := {| gps_files := ∅; fix_files := ∅ |}.

End Examples.

(** * Properties *)

(** ** Index labels *)







(** ** [idxmin] and [loc] *)




(** ** The trajectory loader *)







(** ** Order among equal timestamps *)




(** ** Loops of the script monad *)

Lemma for_each_preserves {A} (P : state → Prop) (xs : list A) (body : A → script unit) :
  (∀ x st, x ∈ xs → P st → P (body x st).2) →
  ∀ st, P st → P (for_each xs body st).2.
Proof.
  induction xs as [|x xs IH]; intros Hbody st Hst; [done|].
  cbn [for_each]. unfold script_bind.
  pose proof (Hbody x st ltac:(left) Hst) as Hx.
  destruct (body x st) as [[[]|e] st']; [|done].
  apply IH; [|done]. intros y st'' Hy. apply Hbody. by right.
Qed.

Lemma for_each_app {A} (xs ys : list A) (body : A → script unit) (st : state) :
  for_each (xs ++ ys) body st
  = (for_each xs body ;; for_each ys body)%script st.
Proof.
  revert st. induction xs as [|x xs IH]; intros st; [done|].
  cbn [app for_each]. unfold script_bind.
  destruct (body x st) as [[[]|e] st']; [|done].
  rewrite IH. done.
Qed.

Lemma for_each_fmap {A B} (f : A → B) (xs : list A) (body : B → script unit) (st : state) :
  for_each (f <$> xs) body st = for_each xs (body ∘ f) st.
Proof.
  revert st. induction xs as [|x xs IH]; intros st; [done|].
  cbn [fmap list_fmap for_each]. unfold script_bind. simpl.
  destruct (body (f x) st) as [[[]|e] st']; [|done]. apply IH.
Qed.

Lemma for_each_raise {A} (x : A) (xs : list A) (body : A → script unit)
    (st st' : state) (e : exn) :
  body x st = (Raise e, st') → for_each (x :: xs) body st = (Raise e, st').
Proof. intros Hx. cbn [for_each]. unfold script_bind. by rewrite Hx. Qed.

Lemma for_each_ok {A} (x : A) (xs : list A) (body : A → script unit) (st st' : state) :
  body x st = (Ok (), st') → for_each (x :: xs) body st = for_each xs body st'.
Proof. intros Hx. cbn [for_each]. unfold script_bind. by rewrite Hx. Qed.

(** The fifteen session pairs in the order of the double loop. *)
Lemma process_all_flat sort_values geodesic (house_coords : registry) fs (st : state) :
  process_all sort_values geodesic house_coords fs st
  = for_each session_pairs
      (λ p, process_pair sort_values geodesic house_coords fs p.1 p.2) st.
Proof.
  unfold process_all, session_pairs.
  generalize (seq 1 5). intros es. revert st.
  induction es as [|e es IH]; intros st; [done|].
  cbn [for_each mbind list_bind]. rewrite for_each_app. unfold script_bind.
  rewrite for_each_fmap.
  destruct (for_each (seq 1 3) _ st) as [[[]|err] st']; [|done].
  apply IH.
Qed.

(** ** What a session pair adds to [all_results] *)

Section PairEffects.

Variable sort_values : Pandas.frame GpsRow → Pandas.frame GpsRow.
Variable geodesic : Q * Q → Q * Q → Q.
Variable house_coords : registry.
Variable fs : files.

Lemma load_fix_elem (rows : list FixXlsxRow) (p : nat * FixRow) :
  p ∈ load_fix house_coords rows →
  ∃ h, fix_house_nr p.2 = Some h ∧ h ≠ 0%Z ∧ is_Some (house_coords !! h).
Proof.
  unfold load_fix, filter_fix. rewrite list_elem_of_In, filter_In.
  intros [_ Hmask]. apply andb_prop in Hmask as [Hne Hin].
  destruct (fix_house_nr p.2) as [h|]; [|done]. exists h. split; [done|].
  simpl in Hne, Hin. split.
  - intros ->. done.
  - by apply bool_decide_eq_true in Hin.
Qed.

Lemma distance_row_results (P : DistanceResult → Prop) (e t : nat)
    (gps_df : Pandas.frame GpsRow) (row : FixRow) (st : state) :
  (∀ r, expl r = e → et r = t → fix_house_nr row = Some (house_nr r) →
        fixation_time r = fix_start_timestamp_ns row →
        frame_nr r = fix_frame_nr row → session r = fix_session row →
        house_coords !! house_nr r
        = Some ((target_position r).1, (target_position r).2, building_name r) →
        find_closest_position gps_df (fixation_time r) = Ok (person_position r) →
        distance_m r = geodesic (person_position r) (target_position r) →
        P r) →
  Forall P (all_results st) →
  Forall P (all_results (distance_row geodesic house_coords e t gps_df row st).2).
Proof.
  intros HP Hst. unfold distance_row.
  destruct (fix_house_nr row) as [house_id|] eqn:Hh; [|done].
  destruct (house_coords !! house_id) as [[[target_lat target_lon] name]|] eqn:Hreg;
    [|done].
  unfold script_bind, lift.
  destruct (find_closest_position gps_df _) as [person_coords|err] eqn:Hfind; [|done].
  cbn. apply Forall_app. split; [done|]. apply Forall_singleton.
  by apply HP.
Qed.

Lemma process_pair_results (P : DistanceResult → Prop) (e t : nat) (st : state) :
  (∀ r gps_rows fix_rows i row,
      expl r = e → et r = t →
      gps_files fs !! gps_path e t = Some gps_rows →
      fix_files fs !! fix_path e t = Some fix_rows →
      (i, row) ∈ load_fix house_coords fix_rows →
      fix_house_nr row = Some (house_nr r) →
      fixation_time r = fix_start_timestamp_ns row →
      frame_nr r = fix_frame_nr row → session r = fix_session row →
      house_nr r ≠ 0%Z →
      house_coords !! house_nr r
      = Some ((target_position r).1, (target_position r).2, building_name r) →
      find_closest_position (load_gps sort_values gps_rows) (fixation_time r)
      = Ok (person_position r) →
      distance_m r = geodesic (person_position r) (target_position r) →
      P r) →
  Forall P (all_results st) →
  Forall P (all_results (process_pair sort_values geodesic house_coords fs e t st).2).
Proof.
  intros HP Hst. unfold process_pair.
  destruct (gps_files fs !! gps_path e t) as [gps_rows|] eqn:Hgps; [|done].
  destruct (fix_files fs !! fix_path e t) as [fix_rows|] eqn:Hfix; [|done].
  unfold script_bind at 1. cbn [print].
  apply (for_each_preserves (λ s, Forall P (all_results s))); [|done].
  intros row st' Hrow Hst'. apply distance_row_results; [|done].
  intros r He Ht Hh Htime Hframe Hsession Hreg Hfind Hdist.
  apply list_elem_of_fmap in Hrow as ([i row'] & -> & Hp). cbn [snd] in *.
  destruct (load_fix_elem fix_rows (i, row') Hp) as (h & Hh' & Hne & _).
  cbn [snd] in Hh'.
  apply (HP r gps_rows fix_rows i row'); try done. congruence.
Qed.

Lemma process_all_results (r : DistanceResult) :
  r ∈ all_results (process_all sort_values geodesic house_coords fs initial_state).2 →
  (expl r, et r) ∈ session_pairs
  ∧ is_Some (gps_files fs !! gps_path (expl r) (et r))
  ∧ is_Some (fix_files fs !! fix_path (expl r) (et r))
  ∧ house_nr r ≠ 0%Z
  ∧ is_Some (house_coords !! house_nr r).
Proof.
  rewrite process_all_flat. revert r. apply Forall_forall.
  apply (for_each_preserves (λ s, Forall _ (all_results s))); [|by constructor].
  intros [e t] st Hin Hst. apply process_pair_results; [|done].
  intros r gps_rows fix_rows i row He Ht Hgps Hfix _ _ _ _ _ Hne Hreg _ _.
  simpl in He, Ht. subst e t. split_and!; try done; by eexists.
Qed.

(** Where each record of a run comes from: a fixation row that survived the
    fixation loader of its session pair, the registry entry of its house, and
    the position returned by the alignment against the pair's trajectory. *)
Lemma process_all_provenance (r : DistanceResult) :
  r ∈ all_results (process_all sort_values geodesic house_coords fs initial_state).2 →
  ∃ gps_rows fix_rows i row,
    gps_files fs !! gps_path (expl r) (et r) = Some gps_rows
    ∧ fix_files fs !! fix_path (expl r) (et r) = Some fix_rows
    ∧ (i, row) ∈ load_fix house_coords fix_rows
    ∧ fix_house_nr row = Some (house_nr r)
    ∧ fixation_time r = fix_start_timestamp_ns row
    ∧ frame_nr r = fix_frame_nr row
    ∧ session r = fix_session row
    ∧ house_coords !! house_nr r
      = Some ((target_position r).1, (target_position r).2, building_name r)
    ∧ find_closest_position (load_gps sort_values gps_rows) (fixation_time r)
      = Ok (person_position r)
    ∧ distance_m r = geodesic (person_position r) (target_position r).
Proof.
  rewrite process_all_flat. revert r. apply Forall_forall.
  apply (for_each_preserves (λ s, Forall _ (all_results s))); [|by constructor].
  intros [e t] st Hin Hst. apply process_pair_results; [|done].
  intros r gps_rows fix_rows i row He Ht Hgps Hfix Hrow Hh Htime Hframe Hsession
    Hne Hreg Hfind Hdist.
  simpl in He, Ht. subst e t. exists gps_rows, fix_rows, i, row. by split_and!.
Qed.

End PairEffects.

(** ** Alignment *)



(** The spec's scenario: samples at t=0 and t=10, fixation at t=9: the sample
    of t=10 is matched; at t=5 both are equally near and the first in sorted
    order, t=0, is matched. *)
Example find_closest_position_scenario :
  load_gps Instances.sort_values_merge Examples.trajectory
  = [ (2, {| latitude := 52; longitude := 130001 # 10000; synced_time := 0 |});
      (0, {| latitude := 52; longitude := 13; synced_time := 10 |}) ]
  ∧ find_closest_position (load_gps Instances.sort_values_merge Examples.trajectory) 9
    = Ok (52%Q, 13%Q)
  ∧ find_closest_position (load_gps Instances.sort_values_merge Examples.trajectory) 5
    = Ok (52%Q, (130001 # 10000)%Q).
Proof. by vm_compute. Qed.

(** Every record of a run stems from a fixation row that survived the
    fixation loader of its pair, whose time, frame and session it copies; its
    target position and building name are the registry entry of its house;
    and its distance is the geodesic distance between its person position
    and its target position. *)
Theorem records_carry_registry_entry_and_distance
    (sort_values : Pandas.frame GpsRow → Pandas.frame GpsRow)
    (geodesic : Q * Q → Q * Q → Q) (house_coords : registry) (fs : files) :
  Forall
    (λ r, house_coords !! house_nr r
          = Some ((target_position r).1, (target_position r).2, building_name r)
          ∧ distance_m r = geodesic (person_position r) (target_position r)
          ∧ ∃ fix_rows i row,
              fix_files fs !! fix_path (expl r) (et r) = Some fix_rows
              ∧ (i, row) ∈ load_fix house_coords fix_rows
              ∧ fix_house_nr row = Some (house_nr r)
              ∧ fixation_time r = fix_start_timestamp_ns row
              ∧ frame_nr r = fix_frame_nr row
              ∧ session r = fix_session row)
    (all_results (process_all sort_values geodesic house_coords fs initial_state).2).
Proof.
  apply Forall_forall. intros r Hr.
  apply process_all_provenance in Hr
    as (gps_rows & fix_rows & i & row & _ & Hfix & Hrow & Hh & Htime & Hframe
        & Hsession & Hreg & _ & Hdist).
  split; [done|]. split; [done|]. exists fix_rows, i, row. by split_and!.
Qed.

(** ** Missing files *)

(** Claim C7: when the GPS file or the fixation file of a session pair is
    missing, the pair is skipped: one "Skipping pair" line is printed, no
    record is added and nothing is raised; the double loop goes on with the
    pairs after it; and no record of the whole run belongs to that pair. *)
Theorem missing_file_skips_pair
    (sort_values : Pandas.frame GpsRow → Pandas.frame GpsRow)
    (geodesic : Q * Q → Q * Q → Q) (house_coords : registry) (fs : files)
    (e t : nat) :
  gps_files fs !! gps_path e t = None ∨ fix_files fs !! fix_path e t = None →
  (∀ st, process_pair sort_values geodesic house_coords fs e t st
         = (Ok (), {| stdout := stdout st ++ [skipping_line e t];
                      all_results := all_results st |}))
  ∧ (∀ before after st,
       session_pairs = before ++ (e, t) :: after →
       process_all sort_values geodesic house_coords fs st
       = (for_each before (λ p, process_pair sort_values geodesic house_coords fs p.1 p.2) ;;
          print (skipping_line e t) ;;
          for_each after (λ p, process_pair sort_values geodesic house_coords fs p.1 p.2)
         )%script st)
  ∧ Forall (λ r, (expl r, et r) ≠ (e, t))
      (all_results (process_all sort_values geodesic house_coords fs initial_state).2).
Proof.
  intros Hmissing.
  assert (Hskip : ∀ st, process_pair sort_values geodesic house_coords fs e t st
                        = print (skipping_line e t) st).
  { intros st. unfold process_pair.
    destruct Hmissing as [-> | ->]; [reflexivity|]. destruct (gps_files fs !! _); reflexivity. }
  split; [intros st; by rewrite Hskip|]. split.
  - intros before after st Hsplit. rewrite process_all_flat, Hsplit, for_each_app.
    unfold script_bind.
    destruct (for_each before _ st) as [[[]|err] st']; [|done].
    cbn [for_each fst snd]. unfold script_bind. by rewrite Hskip.
  - apply Forall_forall. intros r Hr.
    apply process_all_results in Hr as (_ & [g Hg] & [f Hf] & _).
    intros Heq. injection Heq as He Ht. rewrite He, Ht in Hg, Hf.
    destruct Hmissing; congruence.
Qed.

Lemma missing_file_skips_pair_witness :
  (gps_files Examples.fs_one !! gps_path 2 3 = None
   ∨ fix_files Examples.fs_one !! fix_path 2 3 = None)
  ∧ (∀ st, process_pair Instances.sort_values_merge Instances.taxicab
             Examples.house_coords Examples.fs_one 2 3 st
           = (Ok (), {| stdout := stdout st ++ [skipping_line 2 3];
                        all_results := all_results st |}))
  ∧ Forall (λ r, (expl r, et r) ≠ (2, 3))
      (all_results (process_all Instances.sort_values_merge Instances.taxicab
                      Examples.house_coords Examples.fs_one initial_state).2).
Proof.
  assert (Hmissing : gps_files Examples.fs_one !! gps_path 2 3 = None
                     ∨ fix_files Examples.fs_one !! fix_path 2 3 = None)
    by (left; by vm_compute).
  split; [exact Hmissing|].
  pose proof (missing_file_skips_pair Instances.sort_values_merge Instances.taxicab
                Examples.house_coords Examples.fs_one 2 3 Hmissing) as (Hskip & _ & Hnone).
  split; [exact Hskip | exact Hnone].
Defined.

(** A run in which only the pair (1, 1) has its files: fourteen pairs are
    skipped, the batch ends normally and holds the one record of (1, 1). *)
Example one_pair_present :
  ∃ st, process_all Instances.sort_values_merge Instances.taxicab
          Examples.house_coords Examples.fs_one initial_state = (Ok (), st)
        ∧ length (stdout st) = 15
        ∧ stdout st !! 0 = Some (processing_line 1 1)
        ∧ stdout st !! 14 = Some (skipping_line 5 3)
        ∧ all_results st
          = [ {| expl := 1; et := 1; house_nr := 1; building_name := "Haus A";
                 fixation_time := 9; person_position := (52%Q, 13%Q);
                 target_position := (52%Q, 13%Q); distance_m := 0%Q;
                 frame_nr := Some 7%Z; session := Some "Expl_1_ET_1" |} ].
Proof. eexists. split; [by vm_compute|]. by vm_compute. Qed.

(** ** Building ids of the records *)

(** Claim C5: every fixation row that survives the fixation loader names a
    house that is not 0 and is a key of the registry; every record of a run
    of the double loop carries such a house id; and so does every record
    collected by the scripts, for the registry read from the archive (when
    the loader raises, no record exists at all). *)
Theorem results_carry_registered_nonzero_houses
    (sort_values : Pandas.frame GpsRow → Pandas.frame GpsRow)
    (geodesic : Q * Q → Q * Q → Q) (fs : files) :
  (∀ (house_coords : registry) rows,
     Forall (λ p, ∃ h, fix_house_nr p.2 = Some h ∧ h ≠ 0%Z
                       ∧ is_Some (house_coords !! h))
       (load_fix house_coords rows))
  ∧ (∀ house_coords : registry,
       Forall (λ r, house_nr r ≠ 0%Z ∧ is_Some (house_coords !! house_nr r))
         (all_results (process_all sort_values geodesic house_coords fs initial_state).2))
  ∧ (∀ float z,
       match Kml.load_house_coords float z with
       | Ok house_coords =>
           Forall (λ r, house_nr r ≠ 0%Z ∧ is_Some (house_coords !! house_nr r))
             (all_results (collect float sort_values geodesic z fs initial_state).2)
       | Raise _ =>
           all_results (collect float sort_values geodesic z fs initial_state).2 = []
       end).
Proof.
  assert (Hrun : ∀ house_coords : registry,
            Forall (λ r, house_nr r ≠ 0%Z ∧ is_Some (house_coords !! house_nr r))
              (all_results
                 (process_all sort_values geodesic house_coords fs initial_state).2)).
  { intros house_coords. apply Forall_forall. intros r Hr.
    by apply process_all_results in Hr as (_ & _ & _ & ? & ?). }
  split; [|split; [exact Hrun|]].
  - intros house_coords rows. apply Forall_forall. intros p Hp.
    by eapply load_fix_elem.
  - intros float z. unfold collect, script_bind, lift.
    destruct (Kml.load_house_coords float z) as [house_coords|err]; [|done].
    specialize (Hrun house_coords).
    by destruct (process_all sort_values geodesic house_coords fs initial_state)
      as [[[]|err] st'].
Qed.

(** Of the four example fixations only the one on house 1 survives: house 0,
    the unregistered house 2 and the row without timestamp are dropped. *)
Example load_fix_drops_invalid_houses :
  load_fix Examples.house_coords Examples.fixations
  = [ (0, {| fix_start_timestamp_ns := 9; fix_house_nr := Some 1%Z;
             fix_frame_nr := Some 7%Z; fix_session := Some "Expl_1_ET_1" |}) ].
Proof. by vm_compute. Qed.

(** ** A session without valid samples *)

Lemma find_closest_position_empty (ts : Z) :
  find_closest_position [] ts = Raise ValueError.
Proof. reflexivity. Qed.

(** Claim C3, as stated, fails.  In [Examples.fs_empty_trajectory] the pair
    (1, 1) has fixations and no valid sample, and the pair (1, 2) is
    complete.  The run is not continued past (1, 1): it ends in [ValueError]
    with the single line printed for (1, 1) and no record, although (1, 2) on
    its own yields a record. *)
Lemma empty_trajectory_aborts_the_batch :
  process_all Instances.sort_values_merge Instances.taxicab
    Examples.house_coords Examples.fs_empty_trajectory initial_state
  = (Raise ValueError, {| stdout := [processing_line 1 1]; all_results := [] |})
  ∧ process_pair Instances.sort_values_merge Instances.taxicab
      Examples.house_coords Examples.fs_empty_trajectory 1 2 initial_state
    = (Ok (),
       {| stdout := [processing_line 1 2];
          all_results :=
            [ {| expl := 1; et := 2; house_nr := 1; building_name := "Haus A";
                 fixation_time := 9; person_position := (52%Q, 13%Q);
                 target_position := (52%Q, 13%Q); distance_m := 0%Q;
                 frame_nr := Some 7%Z; session := Some "Expl_1_ET_1" |} ] |}).
Proof. split; by vm_compute. Qed.

(** Claim C3, amended: when both files of a pair exist, the trajectory has no
    valid sample and some fixation survives the fixation loader, alignment
    raises [ValueError] for every fixation time; the pair prints its
    "Processing" line, raises at its first fixation and adds no record; and
    the double loop ends there with that [ValueError], whatever pairs come
    after. *)
Theorem empty_trajectory_raises_and_stops
    (sort_values : Pandas.frame GpsRow → Pandas.frame GpsRow)
    (geodesic : Q * Q → Q * Q → Q) (house_coords : registry) (fs : files)
    (e t : nat) (gps_rows : list GpsCsvRow) (fix_rows : list FixXlsxRow) :
  gps_files fs !! gps_path e t = Some gps_rows →
  fix_files fs !! fix_path e t = Some fix_rows →
  load_gps sort_values gps_rows = [] →
  load_fix house_coords fix_rows ≠ [] →
  (∀ ts, find_closest_position (load_gps sort_values gps_rows) ts = Raise ValueError)
  ∧ (∀ st, process_pair sort_values geodesic house_coords fs e t st
           = (Raise ValueError,
              {| stdout := stdout st ++ [processing_line e t];
                 all_results := all_results st |}))
  ∧ (∀ before after st st',
       session_pairs = before ++ (e, t) :: after →
       for_each before (λ p, process_pair sort_values geodesic house_coords fs p.1 p.2) st
       = (Ok (), st') →
       process_all sort_values geodesic house_coords fs st
       = (Raise ValueError,
          {| stdout := stdout st' ++ [processing_line e t];
             all_results := all_results st' |})).
Proof.
  intros Hgps Hfix Hempty Hsurvives.
  assert (Hpair : ∀ st, process_pair sort_values geodesic house_coords fs e t st
                        = (Raise ValueError,
                           {| stdout := stdout st ++ [processing_line e t];
                              all_results := all_results st |})).
  { intros st. unfold process_pair. rewrite Hgps, Hfix, Hempty.
    destruct (load_fix house_coords fix_rows) as [|p rest] eqn:Hdf; [done|].
    destruct (load_fix_elem house_coords fix_rows p) as (h & Hh & _ & [v Hv]).
    { rewrite Hdf. left. }
    unfold script_bind at 1. cbn [print fmap list_fmap].
    apply for_each_raise. unfold distance_row. rewrite Hh, Hv.
    by destruct v as [[target_lat target_lon] name]. }
  split; [intros ts; by rewrite Hempty|]. split; [exact Hpair|].
  intros before after st st' Hsplit Hbefore.
  rewrite process_all_flat, Hsplit, for_each_app. unfold script_bind.
  rewrite Hbefore. apply for_each_raise. apply Hpair.
Qed.

Lemma empty_trajectory_raises_and_stops_witness :
  gps_files Examples.fs_empty_trajectory !! gps_path 1 1 = Some Examples.no_valid_sample
  ∧ fix_files Examples.fs_empty_trajectory !! fix_path 1 1 = Some Examples.fixations
  ∧ load_gps Instances.sort_values_merge Examples.no_valid_sample = []
  ∧ load_fix Examples.house_coords Examples.fixations ≠ []
  ∧ (∀ ts, find_closest_position
             (load_gps Instances.sort_values_merge Examples.no_valid_sample) ts
           = Raise ValueError)
  ∧ (∀ st, process_pair Instances.sort_values_merge Instances.taxicab
             Examples.house_coords Examples.fs_empty_trajectory 1 1 st
           = (Raise ValueError,
              {| stdout := stdout st ++ [processing_line 1 1];
                 all_results := all_results st |})).
Proof.
  assert (H1 : gps_files Examples.fs_empty_trajectory !! gps_path 1 1
               = Some Examples.no_valid_sample) by (by vm_compute).
  assert (H2 : fix_files Examples.fs_empty_trajectory !! fix_path 1 1
               = Some Examples.fixations) by (by vm_compute).
  assert (H3 : load_gps Instances.sort_values_merge Examples.no_valid_sample = [])
    by (by vm_compute).
  assert (H4 : load_fix Examples.house_coords Examples.fixations ≠ [])
    by (by vm_compute).
  pose proof (empty_trajectory_raises_and_stops Instances.sort_values_merge
                Instances.taxicab Examples.house_coords Examples.fs_empty_trajectory
                1 1 Examples.no_valid_sample Examples.fixations H1 H2 H3 H4)
    as (Hfind & Hpair & _).
  split_and!; [exact H1 | exact H2 | exact H3 | exact H4 | exact Hfind | exact Hpair].
Defined.

(** ** An archive without a [.kml] entry *)

Lemma find_kml_none (z : Kml.archive) :
  Forall (λ name, Text.endswith name ".kml" = false) (Kml.namelist z) →
  Kml.find_kml z = None.
Proof.
  intros Hall. unfold Kml.find_kml.
  destruct (list_find _ (Kml.namelist z)) as [[i name]|] eqn:Hfind; [|done].
  apply list_find_Some in Hfind as (Hi & Hends & _).
  apply list_elem_of_lookup_2 in Hi.
  rewrite Forall_forall in Hall. specialize (Hall name Hi). congruence.
Qed.

Lemma load_fix_empty_registry (rows : list FixXlsxRow) : load_fix ∅ rows = [].
Proof.
  destruct (load_fix ∅ rows) as [|p rest] eqn:Hdf; [done|].
  destruct (load_fix_elem ∅ rows p) as (h & _ & _ & [v Hv]).
  - rewrite Hdf. left.
  - by rewrite lookup_empty in Hv.
Qed.

Lemma for_each_ok_keeps_results {A} (xs : list A) (body : A → script unit) :
  (∀ x st, ∃ st', body x st = (Ok (), st') ∧ all_results st' = all_results st) →
  ∀ st, ∃ st', for_each xs body st = (Ok (), st') ∧ all_results st' = all_results st.
Proof.
  intros Hbody. induction xs as [|x xs IH]; intros st; [by exists st|].
  destruct (Hbody x st) as (st1 & Hx & Hres1).
  destruct (IH st1) as (st2 & Hxs & Hres2).
  exists st2. split; [|congruence]. by rewrite (for_each_ok _ _ _ _ _ Hx).
Qed.

Lemma process_all_empty_registry sort_values geodesic (fs : files) (st : state) :
  ∃ st', process_all sort_values geodesic ∅ fs st = (Ok (), st')
         ∧ all_results st' = all_results st.
Proof.
  rewrite process_all_flat. apply for_each_ok_keeps_results.
  intros [e t] st0. unfold process_pair. cbn [fst snd].
  destruct (gps_files fs !! gps_path e t) as [gps_rows|]; [|by eexists].
  destruct (fix_files fs !! fix_path e t) as [fix_rows|]; [|by eexists].
  rewrite load_fix_empty_registry. by eexists.
Qed.

(** Claim C4, as stated, fails.  The document of [Examples.archive_no_kml] is
    stored under a name that does not end in [.kml]: the loader returns the
    empty registry without raising, the run goes on to process the pair
    (1, 1), and it is only the later read of [distance_df['distance_m']] that
    stops it, with [KeyError]. *)
Lemma archive_without_kml_is_not_refused :
  Kml.load_house_coords Instances.decimal_float Examples.archive_no_kml = Ok ∅
  ∧ ∃ st, outliers_py Instances.decimal_float Instances.sort_values_merge
            Instances.taxicab Examples.archive_no_kml Examples.fs_one
          = (Raise KeyError, st)
          ∧ stdout st !! 0 = Some (processing_line 1 1)
          ∧ length (stdout st) = 15.
Proof. split; [by vm_compute|]. eexists. split; [by vm_compute|]. by vm_compute. Qed.

(** Claim C4, amended: when no entry of the archive has a name ending in
    [.kml], the loader raises nothing and returns the empty registry; the
    double loop then runs to its end over all pairs without adding a record,
    and both scripts stop afterwards with [KeyError], at their first read of
    the [distance_m] column. *)
Theorem archive_without_kml_gives_empty_registry
    (float : string → option Q)
    (sort_values : Pandas.frame GpsRow → Pandas.frame GpsRow)
    (geodesic : Q * Q → Q * Q → Q) (z : Kml.archive) (fs : files) :
  Forall (λ name, Text.endswith name ".kml" = false) (Kml.namelist z) →
  Kml.load_house_coords float z = Ok ∅
  ∧ ∃ st, all_results st = []
          ∧ process_all sort_values geodesic ∅ fs initial_state = (Ok (), st)
          ∧ collect float sort_values geodesic z fs initial_state = (Ok [], st)
          ∧ outliers_py float sort_values geodesic z fs = (Raise KeyError, st)
          ∧ building_distance_py float sort_values geodesic z fs = (Raise KeyError, st).
Proof.
  intros Hnames.
  assert (Hload : Kml.load_house_coords float z = Ok ∅).
  { unfold Kml.load_house_coords. by rewrite (find_kml_none z Hnames). }
  split; [exact Hload|].
  destruct (process_all_empty_registry sort_values geodesic fs initial_state)
    as (st & Hrun & Hres).
  exists st. split; [exact Hres|]. split; [exact Hrun|].
  assert (Hcollect : collect float sort_values geodesic z fs initial_state = (Ok [], st)).
  { unfold collect, script_bind, lift, get_all_results. rewrite Hload, Hrun.
    cbn in Hres. by rewrite Hres. }
  split; [exact Hcollect|]. unfold outliers_py, building_distance_py, script_bind.
  by rewrite Hcollect.
Qed.

Lemma archive_without_kml_gives_empty_registry_witness :
  Forall (λ name, Text.endswith name ".kml" = false)
    (Kml.namelist Examples.archive_no_kml)
  ∧ Kml.load_house_coords Instances.decimal_float Examples.archive_no_kml = Ok ∅
  ∧ ∃ st, all_results st = []
          ∧ process_all Instances.sort_values_merge Instances.taxicab ∅
              Examples.fs_one initial_state = (Ok (), st)
          ∧ collect Instances.decimal_float Instances.sort_values_merge
              Instances.taxicab Examples.archive_no_kml Examples.fs_one initial_state
            = (Ok [], st)
          ∧ outliers_py Instances.decimal_float Instances.sort_values_merge
              Instances.taxicab Examples.archive_no_kml Examples.fs_one
            = (Raise KeyError, st)
          ∧ building_distance_py Instances.decimal_float Instances.sort_values_merge
              Instances.taxicab Examples.archive_no_kml Examples.fs_one
            = (Raise KeyError, st).
Proof.
  assert (Hnames : Forall (λ name, Text.endswith name ".kml" = false)
                     (Kml.namelist Examples.archive_no_kml))
    by (repeat constructor).
  split; [exact Hnames|].
  exact (archive_without_kml_gives_empty_registry Instances.decimal_float
           Instances.sort_values_merge Instances.taxicab Examples.archive_no_kml
           Examples.fs_one Hnames).
Defined.

(** With a [.kml] entry the registry is read from it: the building of
    [Examples.archive] is registered under its number, latitude first. *)
Example load_house_coords_archive :
  Kml.load_house_coords Instances.decimal_float Examples.archive
  = Ok {[ 1%Z := (52%Q, (130001 # 10000)%Q, "Punkt 1") ]}.
Proof. by vm_compute. Qed.

(** ** The outlier step on an empty collection *)

(** Claim C10: when the collection of records is empty the outlier step does
    not return an empty set of outliers: the frame built from no record has
    no [distance_m] column and reading it raises [KeyError], so [outliers.py]
    ends with that error. *)
Theorem empty_results_fail_the_outlier_step
    (float : string → option Q)
    (sort_values : Pandas.frame GpsRow → Pandas.frame GpsRow)
    (geodesic : Q * Q → Q * Q → Q) (z : Kml.archive) (fs : files) (st : state) :
  collect float sort_values geodesic z fs initial_state = (Ok [], st) →
  Outliers.columns [] = []
  ∧ Outliers.outlier_df [] = Raise KeyError
  ∧ outliers_py float sort_values geodesic z fs = (Raise KeyError, st).
Proof.
  intros Hcollect. split; [done|]. split; [done|].
  unfold outliers_py, script_bind. by rewrite Hcollect.
Qed.

Lemma empty_results_fail_the_outlier_step_witness :
  ∃ st, collect Instances.decimal_float Instances.sort_values_merge Instances.taxicab
          Examples.archive Examples.fs_none initial_state = (Ok [], st)
        ∧ length (stdout st) = 15
        ∧ stdout st !! 0 = Some (skipping_line 1 1)
        ∧ Outliers.outlier_df [] = Raise KeyError
        ∧ outliers_py Instances.decimal_float Instances.sort_values_merge
            Instances.taxicab Examples.archive Examples.fs_none
          = (Raise KeyError, st).
Proof.
  eexists.
  assert (Hcollect :
    collect Instances.decimal_float Instances.sort_values_merge Instances.taxicab
      Examples.archive Examples.fs_none initial_state
    = (Ok [], (process_all Instances.sort_values_merge Instances.taxicab
                 {[ 1%Z := (52%Q, (130001 # 10000)%Q, "Punkt 1") ]}
                 Examples.fs_none initial_state).2))
    by (by vm_compute).
  split; [exact Hcollect|]. split; [by vm_compute|]. split; [by vm_compute|].
  exact (proj2 (empty_results_fail_the_outlier_step _ _ _ _ _ _ Hcollect)).
Defined.

(** ** Coordinates of a placemark *)

Lemma split_no_sep (sep : Ascii.ascii) (s : string) :
  Text.contains sep s = false → Text.split sep s = [s].
Proof.
  induction s as [|c s IH]; [done|]. cbn [Text.contains Text.split].
  intros Hc. apply orb_false_elim in Hc as [Hne Hs].
  rewrite Hne, (IH Hs). done.
Qed.

Lemma split_field (sep : Ascii.ascii) (f s : string) :
  Text.contains sep f = false →
  Text.split sep (f +:+ String sep s) = f :: Text.split sep s.
Proof.
  induction f as [|c f IH].
  - intros _. change (EmptyString +:+ String sep s) with (String sep s).
    cbn [Text.split]. by rewrite Ascii.eqb_refl.
  - cbn [Text.contains]. intros Hc. apply orb_false_elim in Hc as [Hne Hf].
    change (String c f +:+ String sep s) with (String c (f +:+ String sep s)).
    cbn [Text.split]. rewrite Hne, (IH Hf). done.
Qed.

Lemma split_join (sep : Ascii.ascii) (fields : list string) :
  fields ≠ [] →
  Forall (λ f, Text.contains sep f = false) fields →
  Text.split sep (Text.join sep fields) = fields.
Proof.
  induction fields as [|f [|g rest] IH]; [done| |].
  - intros _ Hall. apply Forall_inv in Hall. by apply split_no_sep.
  - intros _ Hall. apply Forall_cons in Hall as [Hf Hrest].
    change (Text.join sep (f :: g :: rest))
      with (f +:+ String sep (Text.join sep (g :: rest))).
    rewrite split_field by done. f_equal. by apply IH.
Qed.

(** Claim C9: for a placemark named "Punkt n" whose coordinate text is
    [lon,lat] followed by any further fields, the first field is read as the
    longitude and the second as the latitude, and the registry entry of house
    [n] stores them latitude first: (lat, lon, name). *)
Theorem placemark_coordinates_are_swapped
    (float : string → option Q) (house_coords : registry)
    (name_text coord_text : string) (house_id : Z)
    (lon_text lat_text : string) (rest : list string) (lon lat : Q) :
  Kml.match_punkt (Text.strip name_text) = Some house_id →
  Text.strip coord_text = Text.join "," (lon_text :: lat_text :: rest) →
  Forall (λ f, Text.contains "," f = false) (lon_text :: lat_text :: rest) →
  float lon_text = Some lon →
  float lat_text = Some lat →
  Forall (is_Some ∘ float) rest →
  Kml.parse_coords float (Text.strip coord_text) = Ok (lon, lat)
  ∧ Kml.add_placemark float house_coords
      {| Kml.name_elem := Some (Some name_text);
         Kml.coord_elem := Some (Some coord_text) |}
    = Ok (<[house_id := (lat, lon, Text.strip name_text)]> house_coords)
  ∧ (<[house_id := (lat, lon, Text.strip name_text)]> house_coords) !! house_id
    = Some (lat, lon, Text.strip name_text).
Proof.
  intros Hname Hcoords Hfree Hlon Hlat Hrest.
  assert (Hparse : Kml.parse_coords float (Text.strip coord_text) = Ok (lon, lat)).
  { unfold Kml.parse_coords, Kml.parse_fields.
    rewrite Hcoords, split_join by done.
    apply mapM_is_Some_2 in Hrest as [alts Halts].
    cbn [mapM]. rewrite Hlon, Hlat. cbn. rewrite Halts. done. }
  split; [exact Hparse|]. split; [|apply lookup_insert_eq].
  unfold Kml.add_placemark. cbn [Kml.name_elem Kml.coord_elem Kml.text_strip].
  cbn [mbind outcome_mbind outcome_bind]. rewrite Hname.
  cbn [mbind outcome_mbind outcome_bind]. rewrite Hparse. done.
Qed.

Lemma placemark_coordinates_are_swapped_witness :
  Kml.match_punkt (Text.strip " Punkt 1 ") = Some 1%Z
  ∧ Text.strip "13.0001,52.0,0 " = Text.join "," ["13.0001"; "52.0"; "0"]
  ∧ Instances.decimal_float "13.0001" = Some (130001 # 10000)%Q
  ∧ Instances.decimal_float "52.0" = Some 52%Q
  ∧ Kml.parse_coords Instances.decimal_float (Text.strip "13.0001,52.0,0 ")
    = Ok ((130001 # 10000)%Q, 52%Q)
  ∧ Kml.add_placemark Instances.decimal_float ∅
      {| Kml.name_elem := Some (Some " Punkt 1 ");
         Kml.coord_elem := Some (Some "13.0001,52.0,0 ") |}
    = Ok (<[1%Z := (52%Q, (130001 # 10000)%Q, Text.strip " Punkt 1 ")]> ∅)
  ∧ (<[1%Z := (52%Q, (130001 # 10000)%Q, Text.strip " Punkt 1 ")]> (∅ : registry)) !! 1%Z
    = Some (52%Q, (130001 # 10000)%Q, Text.strip " Punkt 1 ").
Proof.
  assert (H1 : Kml.match_punkt (Text.strip " Punkt 1 ") = Some 1%Z) by (by vm_compute).
  assert (H2 : Text.strip "13.0001,52.0,0 " = Text.join "," ["13.0001"; "52.0"; "0"])
    by (by vm_compute).
  assert (H3 : Forall (λ f, Text.contains "," f = false) ["13.0001"; "52.0"; "0"])
    by (repeat constructor).
  assert (H4 : Instances.decimal_float "13.0001" = Some (130001 # 10000)%Q)
    by (by vm_compute).
  assert (H5 : Instances.decimal_float "52.0" = Some 52%Q) by (by vm_compute).
  assert (H6 : Forall (is_Some ∘ Instances.decimal_float) ["0"])
    by (repeat constructor; by eexists).
  pose proof (placemark_coordinates_are_swapped Instances.decimal_float ∅
                " Punkt 1 " "13.0001,52.0,0 " 1 "13.0001" "52.0" ["0"]
                (130001 # 10000)%Q 52%Q H1 H2 H3 H4 H5 H6) as (Hp & Ha & Hl).
  split_and!; [exact H1 | exact H2 | exact H4 | exact H5 | exact Hp | exact Ha | exact Hl].
Defined.

(** Coordinate texts the loader does not accept: a single field, and a field
    that is no number; both end the run with [ValueError]. *)
Example parse_coords_rejects :
  Kml.parse_coords Instances.decimal_float "13.0001" = Raise ValueError
  ∧ Kml.parse_coords Instances.decimal_float "13.0001,north" = Raise ValueError
  ∧ Kml.parse_coords Instances.decimal_float "13.0001,52.0,high" = Raise ValueError.
Proof. split_and!; by vm_compute. Qed.

(** ** Quantiles *)


Section Interpolation.

Variable s : list Q.
Hypothesis s_sorted : StronglySorted Qle s.
Hypothesis s_nonempty : s ≠ [].

Let n := length s.
Let pos (q : Q) : Q := (inject_Z (Z.of_nat (n - 1)) * q)%Q.
Let lo (q : Q) : nat := Z.to_nat (Qfloor (pos q)).
Let frac (q : Q) : Q := (pos q - inject_Z (Qfloor (pos q)))%Q.







End Interpolation.





(** ** The outlier step *)

(** Claim C6, as stated, fails: for the pooled distances of the scenario the
    first quartile is 9/4, not 2, so the interquartile range is 7/4, not 2,
    and the lower bound is -3/8, not -1. *)
Lemma pooled_scenario_first_quartile_is_not_2 :
  Outliers.quantile Examples.pooled_distances (1 # 4) = Some (9 # 4)%Q
  ∧ Outliers.quantile Examples.pooled_distances (3 # 4) = Some 4%Q
  ∧ ¬ (9 # 4 == 2)%Q
  ∧ ¬ (4 - (9 # 4) == 2)%Q
  ∧ ¬ ((9 # 4) - (3 # 2) * (4 - (9 # 4)) == -1)%Q.
Proof.
  split; [by vm_compute|]. split; [by vm_compute|]. split_and!; by vm_compute.
Qed.

(** Claim C6, amended: for the pooled distances [1,2,2,3,3,3,4,4,5,100] the
    outlier step computes Q1 = 9/4, Q3 = 4 and IQR = 7/4, hence the bounds
    -3/8 and 53/8, and returns exactly the record of distance 100. *)
Theorem pooled_scenario_quartiles_and_outliers :
  Outliers.quantile (distance_m <$> Examples.pooled) (1 # 4) = Some (9 # 4)%Q
  ∧ Outliers.quantile (distance_m <$> Examples.pooled) (3 # 4) = Some 4%Q
  ∧ (4 - (9 # 4) == 7 # 4)%Q
  ∧ ((9 # 4) - (3 # 2) * (4 - (9 # 4)) == - (3 # 8))%Q
  ∧ (4 + (3 # 2) * (4 - (9 # 4)) == 53 # 8)%Q
  ∧ Outliers.outlier_df Examples.pooled = Ok [Examples.result_in 1 1 100]
  ∧ List.filter (Outliers.is_outlier (9 # 4) 4) Examples.pooled
    = [Examples.result_in 1 1 100].
Proof. split_and!; by vm_compute. Qed.



(** The bounds are those of the pooled column: the record of the pair (2, 1)
    is an outlier among the records of both sessions, and would not be one
    were the quartiles taken of its own session only. *)
Example outliers_are_judged_on_the_pool :
  Outliers.outlier_df Examples.two_sessions = Ok [Examples.result_in 2 1 100]
  ∧ Outliers.outlier_df (List.filter (λ r, expl r =? 2) Examples.two_sessions) = Ok [].
Proof. split; by vm_compute. Qed.

(** ** One record per surviving fixation *)




(** * Further properties of the registry loader *)




Lemma add_placemark_skipped (float : string → option Q) (house_coords : registry)
    (placemark : Kml.Placemark) :
  Kml.skipped placemark = true →
  Kml.add_placemark float house_coords placemark = Ok house_coords.
Proof.
  unfold Kml.skipped, Kml.add_placemark.
  destruct (Kml.name_elem placemark) as [[name_text|]|]; [| |done].
  - destruct (Kml.coord_elem placemark) as [coord_text|]; [|done].
    intros Hnone. apply bool_decide_eq_true in Hnone.
    cbn [Kml.text_strip mbind outcome_mbind outcome_bind]. by rewrite Hnone.
  - by destruct (Kml.coord_elem placemark).
Qed.

Lemma add_placemarks_app (float : string → option Q) (house_coords : registry)
    (placemarks more : list Kml.Placemark) :
  Kml.add_placemarks float house_coords (placemarks ++ more)
  = house_coords' ← Kml.add_placemarks float house_coords placemarks;
    Kml.add_placemarks float house_coords' more.
Proof.
  revert house_coords. induction placemarks as [|placemark placemarks IH];
    intros house_coords; [done|].
  cbn [app Kml.add_placemarks].
  destruct (Kml.add_placemark float house_coords placemark) as [house_coords'|err];
    [|done].
  cbn [mbind outcome_mbind outcome_bind]. apply IH.
Qed.

Lemma add_placemark_cases (float : string → option Q) (house_coords reg : registry)
    (placemark : Kml.Placemark) :
  Kml.add_placemark float house_coords placemark = Ok reg →
  (Kml.house_of placemark = None ∧ reg = house_coords)
  ∨ ∃ house_id entry,
      Kml.house_of placemark = Some house_id
      ∧ Kml.registers float placemark house_id entry
      ∧ reg = <[house_id := entry]> house_coords.
Proof.
  unfold Kml.add_placemark, Kml.house_of, Kml.registers.
  destruct (Kml.name_elem placemark) as [[name_text|]|]; [| |intros [= <-]; by left].
  - destruct (Kml.coord_elem placemark) as [coord_text|]; [|intros [= <-]; by left].
    cbn [Kml.text_strip mbind outcome_mbind outcome_bind].
    destruct (Kml.match_punkt (Text.strip name_text)) as [house_id|] eqn:Hid;
      [|intros [= <-]; by left].
    destruct coord_text as [coord_text|]; [|done].
    cbn [Kml.text_strip mbind outcome_mbind outcome_bind].
    destruct (Kml.parse_coords float (Text.strip coord_text)) as [[lon lat]|err] eqn:Hp;
      [|done].
    cbn [mbind outcome_mbind outcome_bind]. intros [= <-]. right.
    exists house_id, (lat, lon, Text.strip name_text). split; [done|]. split; [|done].
    by exists name_text, coord_text.
  - destruct (Kml.coord_elem placemark); [done|intros [= <-]; by left].
Qed.

(** Placemarks without a name element, without point coordinates or with a
    name that is not "Punkt n" play no part in the registry: the loop over a
    document gives what it gives over the document without them, whether it
    is a registry or an exception, and whatever their coordinate text. *)
Theorem skipped_placemarks_do_not_matter
    (float : string → option Q) (house_coords : registry)
    (placemarks : list Kml.Placemark) :
  Kml.add_placemarks float house_coords placemarks
  = Kml.add_placemarks float house_coords
      (List.filter (λ placemark, negb (Kml.skipped placemark)) placemarks).
Proof.
  revert house_coords. induction placemarks as [|placemark placemarks IH];
    intros house_coords; [done|].
  cbn [List.filter]. destruct (Kml.skipped placemark) eqn:Hskip; cbn [negb].
  - cbn [Kml.add_placemarks]. rewrite add_placemark_skipped by done.
    cbn [mbind outcome_mbind outcome_bind]. apply IH.
  - cbn [Kml.add_placemarks].
    destruct (Kml.add_placemark float house_coords placemark); [|done].
    cbn [mbind outcome_mbind outcome_bind]. apply IH.
Qed.





Lemma add_placemark_registers (float : string → option Q) (house_coords : registry)
    (placemark : Kml.Placemark) (n : Z) (entry : Q * Q * string) :
  Kml.registers float placemark n entry →
  Kml.add_placemark float house_coords placemark = Ok (<[n := entry]> house_coords).
Proof.
  intros (name_text & coord_text & Hname & Hcoord & Hid & Hparse & Hentry).
  destruct entry as [[lat lon] name]. cbn in Hparse, Hentry. subst name.
  unfold Kml.add_placemark. rewrite Hname, Hcoord.
  cbn [Kml.text_strip mbind outcome_mbind outcome_bind]. rewrite Hid.
  cbn [mbind outcome_mbind outcome_bind]. by rewrite Hparse.
Qed.

Lemma add_placemarks_untouched (float : string → option Q) (n : Z)
    (placemarks : list Kml.Placemark) (house_coords reg : registry) :
  Kml.add_placemarks float house_coords placemarks = Ok reg →
  Forall (λ placemark, Kml.house_of placemark ≠ Some n) placemarks →
  reg !! n = house_coords !! n.
Proof.
  revert house_coords. induction placemarks as [|placemark placemarks IH];
    intros house_coords Hload Hall.
  - by injection Hload as <-.
  - cbn [Kml.add_placemarks] in Hload. apply Forall_cons in Hall as [Hpm Hall].
    destruct (Kml.add_placemark float house_coords placemark) as [reg1|err] eqn:H1;
      [|done].
    cbn [mbind outcome_mbind outcome_bind] in Hload.
    rewrite (IH reg1 Hload Hall).
    destruct (add_placemark_cases _ _ _ _ H1)
      as [[_ ->]|(house_id & entry & Hid & _ & ->)]; [done|].
    apply lookup_insert_ne. congruence.
Qed.

(** When several placemarks of a document carry the same house number, the
    registry holds the entry of the last of them: an earlier building of that
    number is overwritten without notice. *)
Theorem last_placemark_of_a_number_wins
    (float : string → option Q) (placemarks : list Kml.Placemark) (reg : registry)
    (i : nat) (placemark : Kml.Placemark) (n : Z) (entry : Q * Q * string) :
  Kml.add_placemarks float ∅ placemarks = Ok reg →
  placemarks !! i = Some placemark →
  Kml.registers float placemark n entry →
  (∀ j later, i < j → placemarks !! j = Some later → Kml.house_of later ≠ Some n) →
  reg !! n = Some entry.
Proof.
  intros Hload Hi Hreg Hlater.
  rewrite <- (take_drop_middle placemarks i placemark Hi) in Hload.
  rewrite add_placemarks_app in Hload.
  destruct (Kml.add_placemarks float ∅ (take i placemarks)) as [reg1|err]; [|done].
  cbn [mbind outcome_mbind outcome_bind Kml.add_placemarks] in Hload.
  rewrite (add_placemark_registers float reg1 placemark n entry Hreg) in Hload.
  cbn [mbind outcome_mbind outcome_bind] in Hload.
  rewrite (add_placemarks_untouched float n _ _ _ Hload).
  - apply lookup_insert_eq.
  - apply Forall_forall. intros later Hin.
    apply list_elem_of_lookup in Hin as [k Hk]. rewrite lookup_drop in Hk.
    apply (Hlater (S i + k)); [lia|done].
Qed.

Lemma last_placemark_of_a_number_wins_witness :
  Kml.add_placemarks Instances.decimal_float ∅ Examples.duplicates
  = Ok {[ 1%Z := ((107 # 2)%Q, (29 # 2)%Q, "punkt 01") ]}
  ∧ Examples.duplicates !! 1 = Some (Examples.placemark "punkt 01" "14.5,53.5,0")
  ∧ Kml.registers Instances.decimal_float (Examples.placemark "punkt 01" "14.5,53.5,0")
      1 ((107 # 2)%Q, (29 # 2)%Q, "punkt 01")
  ∧ ({[ 1%Z := ((107 # 2)%Q, (29 # 2)%Q, "punkt 01") ]} : registry) !! 1%Z
    = Some ((107 # 2)%Q, (29 # 2)%Q, "punkt 01").
Proof.
  assert (H1 : Kml.add_placemarks Instances.decimal_float ∅ Examples.duplicates
               = Ok {[ 1%Z := ((107 # 2)%Q, (29 # 2)%Q, "punkt 01") ]})
    by (by vm_compute).
  assert (H2 : Examples.duplicates !! 1
               = Some (Examples.placemark "punkt 01" "14.5,53.5,0")) by done.
  assert (H3 : Kml.registers Instances.decimal_float
                 (Examples.placemark "punkt 01" "14.5,53.5,0")
                 1 ((107 # 2)%Q, (29 # 2)%Q, "punkt 01")).
  { exists "punkt 01", "14.5,53.5,0". split_and!; by vm_compute. }
  assert (H4 : ∀ j later, 1 < j → Examples.duplicates !! j = Some later →
                          Kml.house_of later ≠ Some 1%Z).
  { intros [|[|[|j]]] later Hj Hlater; try lia; [|done].
    injection Hlater as <-. by vm_compute. }
  split_and!; [exact H1 | exact H2 | exact H3 |].
  exact (last_placemark_of_a_number_wins Instances.decimal_float Examples.duplicates
           _ 1 _ 1 _ H1 H2 H3 H4).
Defined.

(** ** Names of building placemarks *)












(** * Annotation of the outlier frames *)

Section PlotProperties.

Variable str_missing : string.
Variable format_1f : Q → string.
Variable image_exists : string → bool.
Variable can_save : string → bool.
Variable image_path : string.



End PlotProperties.



(** The annotated copy of a frame: where it is read, where it is written and
    what is drawn on it. *)
Example annotation_of_one_outlier :
  Annotate.plot_outlier_images "nan" Examples.whole_metres Examples.one_image
    (λ _, true) [Examples.outlier_framed] "frames"
  = (Annotate.Finished,
     {| Annotate.printed :=
          ["Saved: outlier_frames_annotated/Expl_1_ET_1_frame_7_Punkt_1.jpg"];
        Annotate.saved :=
          [("outlier_frames_annotated/Expl_1_ET_1_frame_7_Punkt_1.jpg",
            "House 1 - Punkt 1 - 250.0 m")] |}).
Proof. by vm_compute. Qed.



(** * The animated map *)

Section AnimatedProperties.

Variable to_datetime : list string → list (option Z).
Variable strftime : Z → string.
Variable sort_values : Pandas.frame GpsRow → Pandas.frame GpsRow.
Variable float : string → option Q.

Let process := Animated.process_csv to_datetime strftime sort_values.
Let track := Animated.load_track to_datetime sort_values.

Lemma process_csv_loop (files : Animated.folder) (st : Animated.state) :
  let st' := fold_left process files st in
  Animated.cycle st' = Animated.cycle st + length files
  ∧ Animated.legend_items st'
    = Animated.legend_items st
      ++ imap (λ i f, (f.1, nth ((Animated.cycle st + i) `mod` 10)
                              Animated.color_palette EmptyString)) files
  ∧ length (Animated.layers st')
    = length (Animated.layers st)
      + length (List.filter (λ f, bool_decide (track f.2 ≠ [])) files)
  ∧ Animated.markers st' = Animated.markers st.
Proof.
  revert st. induction files as [|[csv_file rows] files IH]; intros st.
  - cbn. rewrite app_nil_r. split_and!; [lia|done|lia|done].
  - cbn [fold_left]. destruct (IH (process st (csv_file, rows))) as (Hc & Hl & Hn & Hm).
    cbn zeta. rewrite Hc, Hl, Hn, Hm. clear IH Hc Hl Hn Hm.
    subst process track. unfold Animated.process_csv. cbn [List.filter fst snd].
    destruct (Animated.load_track to_datetime sort_values rows) as [|[idx first] df]
      eqn:Htrack.
    + cbn [Animated.cycle Animated.legend_items Animated.layers Animated.markers
           length imap].
      rewrite bool_decide_eq_false_2 by (intros H; by apply H).
      rewrite <- app_assoc. cbn [app]. rewrite Nat.add_0_r.
      split_and!; [lia| |done|done]. do 2 f_equal.
      apply imap_ext. intros i f _. unfold compose.
      by replace (S (Animated.cycle st) + i) with (Animated.cycle st + S i) by lia.
    + cbn [Animated.cycle Animated.legend_items Animated.layers Animated.markers
           length imap].
      rewrite bool_decide_eq_true_2 by done.
      rewrite <- app_assoc, length_app. cbn [app length]. rewrite Nat.add_0_r.
      split_and!; [lia| |lia|done]. do 2 f_equal.
      apply imap_ext. intros i f _. unfold compose.
      by replace (S (Animated.cycle st) + i) with (Animated.cycle st + S i) by lia.
Qed.



End AnimatedProperties.

Lemma animated_py_fields to_datetime strftime sort_values float
    (dir : Animated.folder) (z : Kml.archive) (st : Animated.state) :
  Animated.animated_py to_datetime strftime sort_values float dir z = Ok st →
  let looped := fold_left (Animated.process_csv to_datetime strftime sort_values)
                  (Animated.csv_files dir) Animated.initial in
  Animated.map_location st = Animated.map_location looped
  ∧ Animated.layers st = Animated.layers looped
  ∧ Animated.legend_items st = Animated.legend_items looped
  ∧ Animated.load_markers float z = Ok (Animated.markers st).
Proof.
  unfold Animated.animated_py.
  destruct (Animated.load_markers float z) as [markers|err]; [|done].
  cbn [mbind outcome_mbind outcome_bind]. by intros [= <-].
Qed.

Lemma palette_colours_differ (a b : nat) :
  a < 10 → b < 10 →
  nth a Animated.color_palette EmptyString = nth b Animated.color_palette EmptyString →
  a = b.
Proof.
  assert (Hnd : List.NoDup Animated.color_palette).
  { apply NoDup_ListNoDup. apply (bool_decide_unpack _). by vm_compute. }
  intros Ha Hb. by apply (proj1 (NoDup_nth _ _) Hnd).
Qed.



(** Two entries of the legend have the same colour exactly when their
    positions differ by a multiple of ten: the palette of ten colours is
    gone through in turn, so the eleventh file is drawn in the colour of the
    first. *)
Theorem colours_repeat_every_ten_files to_datetime strftime sort_values float
    (dir : Animated.folder) (z : Kml.archive) (st : Animated.state)
    (i j : nat) (name_i name_j color_i color_j : string) :
  Animated.animated_py to_datetime strftime sort_values float dir z = Ok st →
  Animated.legend_items st !! i = Some (name_i, color_i) →
  Animated.legend_items st !! j = Some (name_j, color_j) →
  color_i = color_j ↔ i `mod` 10 = j `mod` 10.
Proof.
  intros Hrun Hi Hj.
  pose proof (animated_py_fields _ _ _ _ _ _ _ Hrun) as Hfields.
  cbn zeta in Hfields. destruct Hfields as (_ & _ & Hlegend & _).
  pose proof (process_csv_loop to_datetime strftime sort_values
                (Animated.csv_files dir) Animated.initial) as Hloop.
  cbn zeta in Hloop. destruct Hloop as (_ & Hl & _).
  rewrite Hlegend, Hl in Hi, Hj.
  cbn [Animated.initial Animated.legend_items app Animated.cycle Nat.add] in Hi, Hj.
  rewrite list_lookup_imap in Hi, Hj.
  assert (Hci : color_i = nth (i `mod` 10) Animated.color_palette EmptyString).
  { destruct (Animated.csv_files dir !! i) as [fi|]; [|done]. by injection Hi. }
  assert (Hcj : color_j = nth (j `mod` 10) Animated.color_palette EmptyString).
  { destruct (Animated.csv_files dir !! j) as [fj|]; [|done]. by injection Hj. }
  rewrite Hci, Hcj. clear.
  split; [|by intros ->].
  apply palette_colours_differ; by apply Nat.mod_upper_bound.
Qed.

Lemma colours_repeat_every_ten_files_witness :
  ∃ st,
    Animated.animated_py Instances.epoch_seconds pretty Instances.sort_values_merge
      Instances.decimal_float Examples.eleven_tracks Examples.archive = Ok st
    ∧ Animated.legend_items st !! 0 = Some ("track_0.csv", "blue")
    ∧ Animated.legend_items st !! 10 = Some ("track_10.csv", "blue")
    ∧ ("blue" = "blue" ↔ 0 `mod` 10 = 10 `mod` 10).
Proof.
  destruct (Animated.animated_py Instances.epoch_seconds pretty
              Instances.sort_values_merge Instances.decimal_float
              Examples.eleven_tracks Examples.archive) as [st|err] eqn:Hrun;
    [|by vm_compute in Hrun].
  exists st.
  assert (H0 : Animated.legend_items st !! 0 = Some ("track_0.csv", "blue"))
    by (vm_compute in Hrun; injection Hrun as <-; by vm_compute).
  assert (H10 : Animated.legend_items st !! 10 = Some ("track_10.csv", "blue"))
    by (vm_compute in Hrun; injection Hrun as <-; by vm_compute).
  split; [done|]. split; [exact H0|]. split; [exact H10|].
  exact (colours_repeat_every_ten_files _ _ _ _ _ _ _ 0 10 _ _ _ _ Hrun H0 H10).
Defined.







(** * The archive entry that is read *)






Section AnimatedLayers.

Variable to_datetime : list string → list (option Z).
Variable strftime : Z → string.
Variable sort_values : Pandas.frame GpsRow → Pandas.frame GpsRow.
Variable dir : Animated.folder.



End AnimatedLayers.



(** * Further properties of the outlier step *)













(** Four records are enough for one of them to be an outlier. *)
Example four_records_can_have_an_outlier :
  Outliers.outlier_df (Examples.result_in 1 1 <$> [0; 0; 0; 1]%Q)
  = Ok [Examples.result_in 1 1 1%Q].
Proof. by vm_compute. Qed.



(** * The log of the double loop *)

Section Log.

Variable sort_values : Pandas.frame GpsRow → Pandas.frame GpsRow.
Variable geodesic : Q * Q → Q * Q → Q.
Variable house_coords : registry.
Variable fs : files.

Lemma distance_row_stdout (e t : nat) (gps_df : Pandas.frame GpsRow) (row : FixRow)
    (st : state) :
  stdout (distance_row geodesic house_coords e t gps_df row st).2 = stdout st.
Proof.
  unfold distance_row. destruct (fix_house_nr row) as [house_id|]; [|done].
  destruct (house_coords !! house_id) as [[[target_lat target_lon] name]|]; [|done].
  unfold script_bind, lift. by destruct (find_closest_position gps_df _).
Qed.

Lemma process_pair_stdout (e t : nat) (st : state) :
  let run := process_pair sort_values geodesic house_coords fs e t st in
  stdout run.2 = stdout st ++ [log_line fs (e, t)]
  ∧ (∀ err, run.1 = Raise err →
            is_Some (gps_files fs !! gps_path e t)
            ∧ is_Some (fix_files fs !! fix_path e t)).
Proof.
  cbn zeta. unfold process_pair, log_line. cbn [fst snd].
  destruct (gps_files fs !! gps_path e t) as [gps_rows|];
    [|split; [done|intros err; discriminate]].
  destruct (fix_files fs !! fix_path e t) as [fix_rows|];
    [|split; [done|intros err; discriminate]].
  split; [|by split].
  unfold script_bind at 1. cbn [print].
  apply (for_each_preserves
           (λ s, stdout s = stdout st ++ [processing_line e t])); [|done].
  intros row st' _ Hst'. by rewrite distance_row_stdout.
Qed.

Lemma for_each_pair_stdout (pairs : list (nat * nat)) (st : state) :
  let run := for_each pairs
               (λ p, process_pair sort_values geodesic house_coords fs p.1 p.2) st in
  ∃ visited rest,
    pairs = visited ++ rest
    ∧ stdout run.2 = stdout st ++ (log_line fs <$> visited)
    ∧ (run.1 = Ok () → rest = [])
    ∧ (∀ err, run.1 = Raise err →
         ∃ pair, last visited = Some pair
                 ∧ is_Some (gps_files fs !! gps_path pair.1 pair.2)
                 ∧ is_Some (fix_files fs !! fix_path pair.1 pair.2)).
Proof.
  cbn zeta. revert st. induction pairs as [|[e t] pairs IH]; intros st.
  - exists [], []. cbn. rewrite app_nil_r. by split_and!.
  - cbn [for_each]. unfold script_bind.
    pose proof (process_pair_stdout e t st) as Hpair. cbn zeta in Hpair.
    cbn [fst snd].
    destruct (process_pair sort_values geodesic house_coords fs e t st)
      as [[[]|err] st'] eqn:Hrun; cbn [fst snd] in Hpair; destruct Hpair as [Hout Hfiles].
    + destruct (IH st') as (visited & rest & -> & Hlog & Hok & Hraise).
      exists ((e, t) :: visited), rest. split; [done|]. split.
      { rewrite Hlog, Hout, <- app_assoc. done. }
      split; [done|]. intros err Herr. destruct (Hraise err Herr) as (pair & Hlast & Hp).
      exists pair. split; [|done]. destruct visited; [done|]. done.
    + exists [(e, t)], pairs. split; [done|]. split; [done|]. split; [done|].
      intros err' _. exists (e, t). split; [done|]. by apply (Hfiles err).
Qed.

End Log.

(** Every pair the double loop reaches prints exactly one line, a
    "Processing" line when both of its files exist and a "Skipping pair"
    line otherwise, in the order of the loop.  A run that raises nothing has
    reached all fifteen pairs; a run that raises has stopped in a pair whose
    two files exist, and the "Processing" line of that pair is its last
    line. *)
Theorem one_log_line_per_visited_pair
    (sort_values : Pandas.frame GpsRow → Pandas.frame GpsRow)
    (geodesic : Q * Q → Q * Q → Q) (house_coords : registry) (fs : files) :
  let run := process_all sort_values geodesic house_coords fs initial_state in
  ∃ visited rest,
    session_pairs = visited ++ rest
    ∧ stdout run.2 = log_line fs <$> visited
    ∧ (run.1 = Ok () → rest = [] ∧ length (stdout run.2) = 15)
    ∧ (∀ err, run.1 = Raise err →
         ∃ pair, last visited = Some pair
                 ∧ is_Some (gps_files fs !! gps_path pair.1 pair.2)
                 ∧ is_Some (fix_files fs !! fix_path pair.1 pair.2)
                 ∧ last (stdout run.2) = Some (processing_line pair.1 pair.2)).
Proof.
  cbn zeta. rewrite process_all_flat.
  pose proof (for_each_pair_stdout sort_values geodesic house_coords fs
                session_pairs initial_state) as Hloop.
  cbn zeta in Hloop. destruct Hloop as (visited & rest & Hpairs & Hlog & Hok & Hraise).
  exists visited, rest. split; [done|]. split; [done|]. split.
  - intros Hrun. specialize (Hok Hrun). subst rest. split; [done|].
    rewrite Hlog. cbn [stdout initial_state app]. rewrite length_fmap.
    rewrite app_nil_r in Hpairs. by rewrite <- Hpairs.
  - intros err Herr. destruct (Hraise err Herr) as (pair & Hlast & Hgps & Hfix).
    exists pair. split; [done|]. split; [done|]. split; [done|].
    rewrite Hlog. cbn [stdout initial_state app]. rewrite fmap_last, Hlast.
    cbn [fmap option_fmap option_map]. unfold log_line.
    destruct Hgps as [? ->]. by destruct Hfix as [? ->].
Qed.

(** A run over the files of one pair, and a run stopped by an empty
    trajectory. *)
Example log_of_two_runs :
  stdout (process_all Instances.sort_values_merge Instances.taxicab
            Examples.house_coords Examples.fs_one initial_state).2
  = log_line Examples.fs_one <$> session_pairs
  ∧ stdout (process_all Instances.sort_values_merge Instances.taxicab
              Examples.house_coords Examples.fs_empty_trajectory initial_state).2
    = [processing_line 1 1].
Proof. split; by vm_compute. Qed.
